(** * th-e-core: the file-backed time-series store ([core/database.py])

    A shallow embedding of [CsvDatabase] (range reads over chunk files,
    merge-writes) together with the part of pandas it calls, and the
    properties of the specification that were checked against it.

    Conventions.
    - An instant is a [Z]: nanoseconds since the Unix epoch (the resolution
      of a pandas Timestamp).  A [datetime] is an aware Python datetime: an
      instant and the UTC offset of its wall clock.  The time type holds a
      bounded range of instants, [min_instant] to [max_instant]; a sum
      that leaves it is an error.
    - A number of seconds passed by a caller may be a float; it is held as
      a count of nanoseconds and computed with exactly.
    - A cell holding NaN is an absent key of the column's map.
    - Observation values are kept abstract ([V]) with the addition and the
      zero that [resample(...).sum()] needs.  They stand for numbers that a
      float holds and that the text of a file gives back: [astype(float)]
      and the parser leave them as they are.
    - A path names a file by its text and a directory by its components;
      [.], [..] and links are not interpreted.
    - pandas is modelled as of the 1.x line, the one that still accepts
      [resample(..., base=...)].  One point changed inside that line and is
      kept as a parameter, [parse_keeps_offset]: since pandas 0.24 date
      text carrying a UTC offset parses to a tz-aware index, earlier it was
      converted to naive UTC. *)

From Stdlib Require Import Ascii.
From stdpp Require Import gmap strings list fin_maps pretty sorting.

Local Open Scope Z_scope.

(** ** Outcomes of a call *)

Inductive exn : Set :=
  | TypeError
  | ValueError
  | KeyError
  | IndexError
  | AttributeError
  | EmptyDataError
  | FileNotFoundError
  | FileExistsError
  | NotADirectoryError
  | IsADirectoryError
  | OverflowError.

(** [Diverge] is the outcome of a loop that was still running when its fuel
    ran out. *)
Inductive result (A : Type) : Type :=
  | Ok (a : A)
  | Raise (e : exn)
  | Diverge.
Arguments Ok {A} a.
Arguments Raise {A} e.
Arguments Diverge {A}.

Definition res_bind {A B} (r : result A) (k : A → result B) : result B :=
  match r with
  | Ok a => k a
  | Raise e => Raise e
  | Diverge => Diverge
  end.

Global Instance result_ret : MRet result := @Ok.
Global Instance result_bind : MBind result := λ A B k r, res_bind r k.

(** ** Time *)

Definition second : Z := 1000000000.
Definition day : Z := 86400 * second.

(** [dt.timedelta(hours=h)] and [dt.timedelta(seconds=s)] *)
Definition timedelta_hours (h : Z) : Z := h * 3600 * second.
Definition timedelta_seconds (s : Z) : Z := s * second.

(** A number of seconds that a caller passes, an [int] or a [float], is
    held as the nanoseconds it stands for: [seconds n] is the whole number
    [n], and [whole_seconds x] is [int(x)], which drops the fraction. *)
Definition seconds (n : Z) : Z := n * second.
Definition whole_seconds (x : Z) : Z := Z.quot x second.

Record datetime : Set := mkDatetime { instant : Z; utcoffset : Z }.

Definition dt_add (d : datetime) (delta : Z) : datetime :=
  {| instant := instant d + delta; utcoffset := utcoffset d |}.

Definition dt_le (a b : datetime) : bool := bool_decide (instant a ≤ instant b).
Definition dt_gt (a b : datetime) : bool := bool_decide (instant b < instant a).

(** Seconds (here: nanoseconds) of the wall clock since its midnight. *)
Definition time_of_day (d : datetime) : Z := (instant d + utcoffset d) `mod` day.

(** [d.replace(hour=0, minute=0, second=0, microsecond=0)] *)
Definition replace_midnight (d : datetime) : datetime := dt_add d (- time_of_day d).

(** ** Tables: the part of a pandas DataFrame the store relies on *)

Inductive IndexKind : Set :=
  | ObjectIndex                 (* the index of [pd.DataFrame()] and of an empty parse *)
  | Int64Index                  (* integers, e.g. Unix epoch milliseconds *)
  | DatetimeNaive               (* DatetimeIndex without tz *)
  | DatetimeAware (off : Z).    (* DatetimeIndex with a tz of that UTC offset *)

Global Instance IndexKind_eq_dec : EqDecision IndexKind.
Proof. solve_decision. Defined.

Record DataFrame (V : Type) : Type := mkDataFrame {
  index_name : option string;
  index_kind : IndexKind;
  index : list Z;
  columns : list (string * gmap Z V) }.
Arguments mkDataFrame {V} _ _ _ _.
Arguments index_name {V} _.
Arguments index_kind {V} _.
Arguments index {V} _.
Arguments columns {V} _.

(** A label handed out by [df.index[0]]: a Timestamp, or a plain integer
    when the index is not a datetime index. *)
Inductive label : Set :=
  | LTime (d : datetime)
  | LInt (z : Z).

(** Ordered insertion without repetition; [Index.union] sorts its result. *)
Fixpoint insert_by {A} (cmp : A → A → comparison) (x : A) (l : list A) : list A :=
  match l with
  | [] => [x]
  | y :: r =>
      match cmp x y with
      | Lt => x :: l
      | Eq => l
      | Gt => y :: insert_by cmp x r
      end
  end.

Definition sorted_union {A} (cmp : A → A → comparison) (a b : list A) : list A :=
  foldr (insert_by cmp) [] (a ++ b).

(** [a.union(b)] of pandas' Index: [a] when [b] is empty or equal to [a],
    [b] when [a] is empty, the sorted union otherwise. *)
Definition index_union `{EqDecision A} (cmp : A → A → comparison) (a b : list A) : list A :=
  match b with
  | [] => a
  | _ :: _ =>
      if decide (a = b) then a
      else match a with
           | [] => b
           | _ :: _ => sorted_union cmp a b
           end
  end.

Definition union_labels : list Z → list Z → list Z := index_union Z.compare.
Definition union_names : list string → list string → list string :=
  index_union String.compare.

(** The kind of the joined index.  A tz-naive index does not join a tz-aware
    one; two aware indexes of different zones join in UTC. *)
Definition union_kind (a b : IndexKind) : result IndexKind :=
  match a, b with
  | ObjectIndex, k | k, ObjectIndex => Ok k
  | Int64Index, Int64Index => Ok Int64Index
  | DatetimeNaive, DatetimeNaive => Ok DatetimeNaive
  | DatetimeAware x, DatetimeAware y =>
      Ok (DatetimeAware (if decide (x = y) then x else 0))
  | _, _ => Raise TypeError
  end.

Definition union_name (a b : option string) : option string :=
  if decide (a = b) then a else None.

Section Pandas.
Context {V : Type}.
Variable vadd : V → V → V.
Variable vzero : V.

(** [pd.DataFrame()] *)
Definition new_frame : DataFrame V := mkDataFrame None ObjectIndex [] [].

(** [df.empty]: some axis has length 0 *)
Definition empty (df : DataFrame V) : bool :=
  match index df, columns df with
  | _ :: _, _ :: _ => false
  | _, _ => true
  end.

Definition column_names (df : DataFrame V) : list string := (columns df).*1.

(** The first column of that name. *)
Fixpoint lookup_col (c : string) (cols : list (string * gmap Z V)) : option (gmap Z V) :=
  match cols with
  | [] => None
  | (n, m) :: r => if decide (n = c) then Some m else lookup_col c r
  end.

Definition col_or_nan (c : string) (cols : list (string * gmap Z V)) : gmap Z V :=
  default ∅ (lookup_col c cols).

(** The value stored at column [c], row [t]; [None] for NaN or no such cell. *)
Definition cell (df : DataFrame V) (c : string) (t : Z) : option V :=
  lookup_col c (columns df) ≫= (λ m, m !! t).

(** The names of the two indexes after [self.align(other)].  Equal indexes
    are not joined and keep their names.  Otherwise both frames get the
    joined index: a copy of the one index when the other has no label,
    and else an index that carries the name the two have in common, if
    any.  (Equal labels of different zones are joined: a sorted index then
    comes back as the left one, converted.) *)
Definition aligned_names (self other : DataFrame V) : option string * option string :=
  if decide (index self = index other) then
    if bool_decide (index_kind self = index_kind other ∨ index self = [])
    then (index_name self, index_name other)
    else if decide (StronglySorted Z.lt (index self))
         then (index_name self, index_name self)
         else (union_name (index_name self) (index_name other),
               union_name (index_name self) (index_name other))
  else
    let name :=
      match index other, index self with
      | [], _ => index_name self
      | _, [] => index_name other
      | _, _ => union_name (index_name self) (index_name other)
      end in
    (name, name).

(** [self.combine_first(other)], through [DataFrame.combine]: both frames
    are aligned on the union of their labels and of their column names;
    the two early returns of [combine] come first; otherwise every cell is
    [self]'s value unless that is NaN, then [other]'s. *)
Definition combine_first (self other : DataFrame V) : result (DataFrame V) :=
  kind ← union_kind (index_kind self) (index_kind other);
  let idx := union_labels (index self) (index other) in
  let names := union_names (column_names self) (column_names other) in
  let aligned_other :=
    mkDataFrame (aligned_names self other).2 kind idx
      ((λ c, (c, col_or_nan c (columns other))) <$> names) in
  if empty aligned_other && bool_decide (length idx = length (index self)) then Ok self
  else if empty self && bool_decide (length idx = length (index other)) then Ok aligned_other
  else
    Ok (mkDataFrame (aligned_names self other).1 kind idx
          ((λ c, (c, col_or_nan c (columns self) ∪ col_or_nan c (columns other))) <$> names)).

(** [pd.concat([a, b], axis=1)]: the columns of [a], then those of [b],
    names repeated if they repeat, over the union of the labels. *)
Definition concat_columns (a b : DataFrame V) : result (DataFrame V) :=
  kind ← union_kind (index_kind a) (index_kind b);
  Ok (mkDataFrame (union_name (index_name a) (index_name b)) kind
        (union_labels (index a) (index b)) (columns a ++ columns b)).

(** Keep the given rows of every column. *)
Definition restrict_columns (rows : list Z) (cols : list (string * gmap Z V))
  : list (string * gmap Z V) :=
  (λ nc : string * gmap Z V, (nc.1, filter (λ kv : Z * V, kv.1 ∈ rows) nc.2)) <$> cols.

Definition with_rows (df : DataFrame V) (rows : list Z) : DataFrame V :=
  mkDataFrame (index_name df) (index_kind df) rows (restrict_columns rows (columns df)).

(** The closed range [lo, hi] of labels in increasing order: drop the
    labels before [lo], keep the labels up to [hi]. *)
Fixpoint drop_before (lo : Z) (l : list Z) : list Z :=
  match l with
  | [] => []
  | x :: r => if decide (x < lo) then drop_before lo r else l
  end.

Fixpoint keep_upto (hi : Z) (l : list Z) : list Z :=
  match l with
  | [] => []
  | x :: r => if decide (x ≤ hi) then x :: keep_upto hi r else []
  end.

(** [Index.slice_locs]: the position of a bound is that of the label where
    the index holds it, and the place where it would be inserted in a
    monotonic index; for such an index both are a count of labels.  A
    label that an index without order does not hold, or holds in separate
    places, is a KeyError. *)
Definition slice_bound (right : bool) (label : Z) (l : list Z) : result nat :=
  if decide (Sorted Z.le l) then
    Ok (if right then length (filter (λ x, x ≤ label) l)
        else length (filter (λ x, x < label) l))
  else if decide (Sorted Z.ge l) then
    Ok (if right then length (filter (λ x, label ≤ x) l)
        else length (filter (λ x, label < x) l))
  else
    match list_find (λ x, x = label) l with
    | None => Raise KeyError
    | Some (i, _) =>
        let k := length (filter (λ x, x = label) l) in
        if bool_decide (Forall (λ x, x = label) (take k (drop i l)))
        then Ok (if right then (i + k)%nat else i)
        else Raise KeyError
    end.

(** The labels at the positions from the left bound to the right one. *)
Definition slice_rows (lo hi : option Z) (l : list Z) : result (list Z) :=
  start ← match lo with Some lo => slice_bound false lo l | None => Ok O end;
  stop ← match hi with Some hi => slice_bound true hi l | None => Ok (length l) end;
  Ok (take (stop - start) (drop start l)).

(** [df.loc[lo:hi]] for two datetimes: an index of integers is not sliced
    by datetimes; a tz-naive index takes the bounds as instants. *)
Definition loc_slice (lo hi : Z) (df : DataFrame V) : result (DataFrame V) :=
  match index_kind df with
  | Int64Index => Raise TypeError
  | _ => rows ← slice_rows (Some lo) (Some hi) (index df); Ok (with_rows df rows)
  end.

(** [df.truncate(before=lo)]: the index has to be sorted, one way or the
    other; the rows are then those of [df.loc[lo:]], and those of
    [df.loc[:lo]] when the labels decrease (pandas 1.1.1 and later). *)
Definition truncate_before (lo : Z) (df : DataFrame V) : result (DataFrame V) :=
  if decide (Sorted Z.le (index df)) then
    match index_kind df with
    | Int64Index => Raise TypeError
    | _ => rows ← slice_rows (Some lo) None (index df); Ok (with_rows df rows)
    end
  else if decide (Sorted Z.ge (index df)) then
    match index_kind df with
    | Int64Index => Raise TypeError
    | _ => rows ← slice_rows None (Some lo) (index df); Ok (with_rows df rows)
    end
  else Raise ValueError.

(** [df.head(n)] *)
Definition head (n : nat) (df : DataFrame V) : DataFrame V :=
  with_rows df (take n (index df)).

(** *** [df.resample(str(n) + 's', base=b).sum()]

    [w] is the bin width and [base] the phase, both in nanoseconds.  The
    bin edges are anchored at the midnight (in the index's own zone) of
    the day of the earliest label, moved by [base]; bins are closed on the
    left and labelled by their left edge; the first bin holds the earliest
    label and the last bin the latest; a bin without values sums to zero. *)
Definition is_datetime (k : IndexKind) : bool :=
  match k with
  | DatetimeNaive | DatetimeAware _ => true
  | _ => false
  end.

Definition kind_offset (k : IndexKind) : Z :=
  match k with
  | DatetimeAware off => off
  | _ => 0
  end.

Definition bin_origin (base off first : Z) : Z :=
  first - (first + off) `mod` day + base.

Definition bin_labels (w base off : Z) (idx : list Z) : list Z :=
  match idx with
  | [] => []
  | x :: r =>
      let first := foldr Z.min x r in
      let last := foldr Z.max x r in
      let origin := bin_origin base off first in
      let foffset := (first - origin) `mod` w in
      let loffset := (last - origin) `mod` w in
      let fresult := if decide (0 < foffset) then first - foffset else first in
      let lresult := if decide (0 < loffset) then last + (w - loffset) else last + w in
      (λ k, fresult + k * w) <$> seqZ 0 ((lresult - fresult) `div` w)
  end.

Definition bin_sum (w : Z) (idx : list Z) (col : gmap Z V) (b : Z) : V :=
  foldl vadd vzero (omap (λ t, col !! t) (filter (λ t, b ≤ t < b + w) idx)).

Definition resample_sum (w base : Z) (df : DataFrame V) : result (DataFrame V) :=
  if is_datetime (index_kind df) then
    let labels := bin_labels w base (kind_offset (index_kind df)) (index df) in
    Ok (mkDataFrame (index_name df) (index_kind df) labels
          ((λ nc : string * gmap Z V,
              (nc.1, list_to_map ((λ b, (b, bin_sum w (index df) nc.2 b)) <$> labels)))
             <$> columns df))
  else Raise TypeError.

(** *** Time zones and index conversion *)

(** [df.tz_convert(tz.utc)]: only a tz-aware datetime index converts. *)
Definition tz_convert_utc (df : DataFrame V) : result (DataFrame V) :=
  match index_kind df with
  | DatetimeAware _ =>
      Ok (mkDataFrame (index_name df) (DatetimeAware 0) (index df) (columns df))
  | _ => Raise TypeError
  end.

(** [df.index = df.index.tz_localize(tz.utc)]: only a naive datetime index
    localizes; an aware one raises, another index has no such method. *)
Definition tz_localize_utc (df : DataFrame V) : result (DataFrame V) :=
  match index_kind df with
  | DatetimeNaive =>
      Ok (mkDataFrame (index_name df) (DatetimeAware 0) (index df) (columns df))
  | DatetimeAware _ => Raise TypeError
  | _ => Raise AttributeError
  end.

(** [df.index.tzinfo] *)
Definition index_tzinfo (df : DataFrame V) : result (option Z) :=
  match index_kind df with
  | DatetimeNaive => Ok None
  | DatetimeAware off => Ok (Some off)
  | _ => Raise AttributeError
  end.

Definition ms_to_ns (ms : Z) : Z := ms * 1000000.

(** [df.index = pd.to_datetime(df.index, unit='ms')]: integers become naive
    timestamps; a datetime index is returned as it is. *)
Definition to_datetime_ms (df : DataFrame V) : DataFrame V :=
  match index_kind df with
  | Int64Index =>
      mkDataFrame (index_name df) DatetimeNaive (ms_to_ns <$> index df)
        ((λ nc : string * gmap Z V, (nc.1, (kmap ms_to_ns nc.2 : gmap Z V)))
           <$> columns df)
  | _ => df
  end.

Definition set_index_name (name : string) (df : DataFrame V) : DataFrame V :=
  mkDataFrame (Some name) (index_kind df) (index df) (columns df).

(** [df.index[0]] *)
Definition index0 (df : DataFrame V) : result label :=
  match index df with
  | [] => Raise IndexError
  | t :: _ =>
      match index_kind df with
      | DatetimeAware off => Ok (LTime (mkDatetime t off))
      | DatetimeNaive => Ok (LTime (mkDatetime t 0))
      | _ => Ok (LInt t)
      end
  end.
End Pandas.

(** ** Chunk files and the file system *)

(** How the cells of the time column are written in a file. *)
Inductive StampText : Set :=
  | EpochMillis               (* integers *)
  | DateNaive                 (* date text without offset *)
  | DateOffset (off : Z).     (* date text with a UTC offset, as [+00:00] *)

(** A file is either zero bytes long or a header line and rows.  The time
    column is the first field, as the store writes it; the labels of
    [DateNaive] and [DateOffset] rows are instants, those of [EpochMillis]
    rows are milliseconds. *)
Inductive File (V : Type) : Type :=
  | ZeroByte
  | Csv (index_header : string) (stamps : StampText) (rows : list Z)
        (cols : list (string * gmap Z V)).
Arguments ZeroByte {V}.
Arguments Csv {V} _ _ _ _.

Inductive fs_event : Set :=
  | EvExists (p : string)
  | EvIsFile (p : string)
  | EvMakedirs (p : string)
  | EvRead (p : string)
  | EvWrite (p : string).

Record World (V : Type) : Type := mkWorld {
  files : gmap string (File V);
  dirs : gset string;
  trace : list fs_event }.
Arguments mkWorld {V} _ _ _.
Arguments files {V} _.
Arguments dirs {V} _.
Arguments trace {V} _.

(** A call: it reads and changes the world and ends in an outcome. *)
Record IO (V A : Type) : Type := mkIO { run : World V → result A * World V }.
Arguments mkIO {V A} _.
Arguments run {V A} _ _.

Global Instance io_ret {V} : MRet (IO V) := λ A a, mkIO (λ w, (Ok a, w)).
Global Instance io_bind {V} : MBind (IO V) := λ A B k m,
  mkIO (λ w, match run m w with
             | (Ok a, w') => run (k a) w'
             | (Raise e, w') => (Raise e, w')
             | (Diverge, w') => (Diverge, w')
             end).

Definition lift {V A} (r : result A) : IO V A := mkIO (λ w, (r, w)).

Definition log {V} (e : fs_event) (w : World V) : World V :=
  mkWorld (files w) (dirs w) (trace w ++ [e]).

(** [posixpath.join] *)
Definition starts_with_sep (s : string) : bool :=
  match s with
  | String c _ => bool_decide (c = "/"%char)
  | EmptyString => false
  end.

Fixpoint ends_with_sep (s : string) : bool :=
  match s with
  | EmptyString => false
  | String c r =>
      match r with
      | EmptyString => bool_decide (c = "/"%char)
      | String _ _ => ends_with_sep r
      end
  end.

Definition join2 (a b : string) : string :=
  if starts_with_sep b then b
  else if bool_decide (a = "") || ends_with_sep a then a +:+ b
  else a +:+ "/" +:+ b.

Definition path_join (a : string) (ps : list string) : string := foldl join2 a ps.

(** The components of a path: the pieces between separators, empty pieces
    left out ([a//b/] has the components [a] and [b]); [.], [..] and links
    are not interpreted.  A directory is known by its key, the components
    joined by single separators; its ancestors are the directories of the
    leading components. *)
Fixpoint split_sep (s cur : string) : list string :=
  match s with
  | EmptyString => [cur]
  | String c r =>
      if bool_decide (c = "/"%char) then cur :: split_sep r ""
      else split_sep r (cur +:+ String c "")
  end.

Definition components (p : string) : list string :=
  filter (λ c, c ≠ "") (split_sep p "").

Definition key_of (absolute : bool) (cs : list string) : string :=
  (if absolute then "/" else "")
  +:+ foldr (λ c r, if bool_decide (r = "") then c else c +:+ "/" +:+ r) "" cs.

Definition dir_key (p : string) : string := key_of (starts_with_sep p) (components p).

(** The keys of the directories on the way to [p], [p] itself last. *)
Definition ancestors (p : string) : list string :=
  (λ n, key_of (starts_with_sep p) (take n (components p)))
    <$> seq 1 (length (components p)).

(** The names pandas gives to repeated header fields: [x], [x.1], [x.2]. *)
Fixpoint mangle_dupe_cols {B} (seen : list string) (cols : list (string * B))
  : list (string * B) :=
  match cols with
  | [] => []
  | (n, m) :: r =>
      let k := length (filter (λ s, s = n) seen) in
      (match k with O => n | S _ => n +:+ "." +:+ pretty k end, m)
        :: mangle_dupe_cols (n :: seen) r
  end.

Definition stamp_text (k : IndexKind) : StampText :=
  match k with
  | Int64Index => EpochMillis
  | DatetimeAware off => DateOffset off
  | _ => DateNaive
  end.

Section FileSystem.
Context {V : Type}.

(** Whether the parser keeps the UTC offset of date text (pandas 0.24 and
    later) or converts to naive UTC (before). *)
Variable parse_keeps_offset : bool.

(** [p] names a directory: the root, or a directory of the world.  The
    empty path names nothing. *)
Definition dir_present (w : World V) (p : string) : bool :=
  match components p with
  | [] => starts_with_sep p
  | _ :: _ => bool_decide (dir_key p ∈ dirs w)
  end.

Definition os_path_exists (p : string) : IO V bool :=
  mkIO (λ w, (Ok (bool_decide (is_Some (files w !! p)) || dir_present w p),
              log (EvExists p) w)).

Definition os_path_isfile (p : string) : IO V bool :=
  mkIO (λ w, (Ok (bool_decide (is_Some (files w !! p))), log (EvIsFile p) w)).

(** [os.makedirs(p)]: the directory and every ancestor that is missing are
    created; nothing is created below a file, at a path that exists, or at
    the empty path. *)
Definition os_makedirs (p : string) : IO V () :=
  mkIO (λ w,
    let tried := log (EvMakedirs p) w in
    match components p with
    | [] => (Raise (if starts_with_sep p then FileExistsError else FileNotFoundError), tried)
    | _ :: _ =>
        if bool_decide (Exists (λ k, is_Some (files w !! k)) (removelast (ancestors p)))
        then (Raise NotADirectoryError, tried)
        else if bool_decide (is_Some (files w !! dir_key p)) || dir_present w p
        then (Raise FileExistsError, tried)
        else (Ok (), mkWorld (files w) (list_to_set (ancestors p) ∪ dirs w)
                       (trace w ++ [EvMakedirs p]))
    end).

Definition parsed_kind (st : StampText) (rows : list Z) : IndexKind :=
  match rows with
  | [] => ObjectIndex
  | _ :: _ =>
      match st with
      | EpochMillis => Int64Index
      | DateNaive => DatetimeNaive
      | DateOffset off => if parse_keeps_offset then DatetimeAware off else DatetimeNaive
      end
  end.

(** [pd.read_csv(path, index_col=c, parse_dates=[c])] of a file whose time
    column is its first field: a zero-byte file has no header to parse, a
    header without the field [c] cannot be indexed by it.  Indexing a file
    by one of its value columns is not modelled and is answered like a
    missing field. *)
Definition parse_csv (index_col : string) (f : File V) : result (DataFrame V) :=
  match f with
  | ZeroByte => Raise EmptyDataError
  | Csv h st rows cols =>
      if decide (h = index_col)
      then Ok (mkDataFrame (Some index_col) (parsed_kind st rows) rows
                 (mangle_dupe_cols [h] cols))
      else Raise ValueError
  end.

Definition read_csv (p index_col : string) : IO V (DataFrame V) :=
  mkIO (λ w, (match files w !! p with
              | None => Raise (if dir_present w p then IsADirectoryError
                               else FileNotFoundError)
              | Some f => parse_csv index_col f
              end, log (EvRead p) w)).

(** [df.to_csv(path)]: the header line is always written.  The file is
    taken to open for writing: its directory is there, as [persist] has
    seen to. *)
Definition render_csv (df : DataFrame V) : File V :=
  Csv (default "" (index_name df)) (stamp_text (index_kind df)) (index df) (columns df).

Definition to_csv (p : string) (df : DataFrame V) : IO V () :=
  mkIO (λ w, (Ok (), mkWorld (<[p := render_csv df]> (files w)) (dirs w)
                        (trace w ++ [EvWrite p]))).
End FileSystem.

(** ** [CsvDatabase] *)

(** The fields set by [CsvDatabase.__init__]; [self_interval] is the bucket
    width in hours.  The separators shape the text of a file only. *)
Record CsvDatabase : Set := mkCsvDatabase {
  self_dir : string;
  self_merge : bool;
  self_format : string;
  self_interval : Z;
  self_index_column : string;
  self_index_unix : bool;
  self_decimal : string;
  self_separator : string }.

(** ** Well-formed tables and files: labels in strictly increasing order,
    every stored cell on a row of the table. *)

Definition cells_in {V} (rows : list Z) (cols : list (string * gmap Z V)) : Prop :=
  Forall (λ nc : string * gmap Z V, map_Forall (λ k _, k ∈ rows) nc.2) cols.

Definition frame_ok {V} (df : DataFrame V) : Prop :=
  StronglySorted Z.lt (index df) ∧ cells_in (index df) (columns df).

Definition file_ok {V} (f : File V) : Prop :=
  match f with
  | ZeroByte => True
  | Csv _ _ rows cols => StronglySorted Z.lt rows ∧ cells_in rows cols
  end.

Definition world_ok {V} (w : World V) : Prop :=
  map_Forall (λ _ f, file_ok f) (files w).

Global Instance file_ok_dec {V} (f : File V) : Decision (file_ok f).
Proof. destruct f; unfold file_ok, cells_in; apply _. Defined.

Global Instance world_ok_dec {V} (w : World V) : Decision (world_ok w).
Proof. unfold world_ok; apply _. Defined.

Global Instance frame_ok_dec {V} (df : DataFrame V) : Decision (frame_ok df).
Proof. unfold frame_ok, cells_in; apply _. Defined.

(** The value a file stores at the first column named [c], row [t]. *)
Definition stored_cell {V} (f : option (File V)) (c : string) (t : Z) : option V :=
  match f with
  | Some (Csv _ _ _ cols) => lookup_col c cols ≫= (λ m, m !! t)
  | _ => None
  end.

Definition stored_header {V} (f : option (File V)) : list string :=
  match f with
  | Some (Csv h _ _ cols) => h :: cols.*1
  | _ => []
  end.

Definition stored_rows {V} (f : option (File V)) : list Z :=
  match f with
  | Some (Csv _ _ rows _) => rows
  | _ => []
  end.

(** A file as the store writes it: the time column is headed [time], the
    stamps carry the offset of UTC, and rows come with columns. *)
Definition written_table {V} (f : File V) : Prop :=
  match f with
  | Csv h (DateOffset off) rows cols => h = "time" ∧ off = 0 ∧ (cols = [] → rows = [])
  | _ => False
  end.

Global Instance written_table_dec {V} (f : File V) : Decision (written_table f).
Proof.
  destruct f as [|h [| |off] rows cols]; try (right; exact (λ H, H)).
  destruct (decide (h = "time")) as [Hh|Hh]; [|right; intros (? & _); done].
  destruct (decide (off = 0)) as [Ho|Ho]; [|right; intros (_ & ? & _); done].
  destruct cols as [|c cs].
  - destruct rows as [|x r]; [left; done|right; intros (_ & _ & H)].
    discriminate (H eq_refl).
  - left. split; [done|]. split; [done|]. intros H. discriminate H.
Defined.

(** The rows and the header of the table a call returned. *)
Definition rows_of {V} (r : result (DataFrame V)) : result (list Z) :=
  df ← r; Ok (index df).

(** The paths whose existence a call asked for, and the paths it read. *)
Definition probed (tr : list fs_event) : list string :=
  omap (λ e, match e with EvExists p => Some p | _ => None end) tr.

Definition was_read (tr : list fs_event) : list string :=
  omap (λ e, match e with EvRead p => Some p | _ => None end) tr.


(** ** Sample data for the examples below *)

Module Samples.
(** File names by the day, as the pattern [%Y%m%d] gives them: the
    number of the day of the wall clock. *)
Definition strftime_day (fmt : string) (d : datetime) : string :=
  pretty ((instant d + utcoffset d) `div` day).

Definition hour (n : Z) : Z := n * 3600 * second.
Definition at_hour (n : Z) : datetime := mkDatetime (hour n) 0.

Definition db : CsvDatabase :=
  mkCsvDatabase "data" false "%Y%m%d" 24 "time" false "." ",".
Definition db_merge : CsvDatabase :=
  mkCsvDatabase "data" true "%Y%m%d" 24 "time" false "." ",".
Definition db_ts : CsvDatabase :=
  mkCsvDatabase "data" true "%Y%m%d" 24 "ts" false "." ",".
Definition db_unix : CsvDatabase :=
  mkCsvDatabase "data" true "%Y%m%d" 24 "time" true "." ",".

Definition empty_world : World Z := mkWorld ∅ ∅ [].

(** Day 0 holds three hourly rows, day 2 two, day 1 has no file. *)
Definition day0 : File Z :=
  Csv "time" (DateOffset 0) [hour 0; hour 1; hour 2]
    [("x", {[ hour 0 := 1; hour 1 := 2; hour 2 := 3 ]})].
Definition day2 : File Z :=
  Csv "time" (DateOffset 0) [hour 48; hour 49]
    [("x", {[ hour 48 := 10; hour 49 := 20 ]}); ("y", {[ hour 48 := 7 ]})].
Definition two_days : World Z :=
  mkWorld {[ "data/0.csv" := day0; "data/2.csv" := day2 ]} {[ "data" ]} [].

(** A zero-byte file and a header-only file. *)
Definition blank_files : World Z :=
  mkWorld {[ "data/0.csv" := ZeroByte; "data/1.csv" := Csv "time" DateNaive [] [("x", ∅)] ]}
          {[ "data" ]} [].

(** Files with naive date text under the headers [time] and [ts], and a
    file of epoch milliseconds. *)
Definition naive_time : File Z :=
  Csv "time" DateNaive [hour 0; hour 1] [("x", {[ hour 0 := 1; hour 1 := 2 ]})].
Definition naive_ts : File Z :=
  Csv "ts" DateNaive [hour 0; hour 1] [("x", {[ hour 0 := 1; hour 1 := 2 ]})].
Definition epoch_time : File Z :=
  Csv "time" EpochMillis [0; 3600000] [("x", {[ 0 := 1; 3600000 := 2 ]})].
Definition other_files : World Z :=
  mkWorld {[ "data/0.csv" := naive_time; "data/1.csv" := naive_ts; "data/2.csv" := epoch_time ]}
          {[ "data" ]} [].

(** Tables to write: [table_a] has the columns x and y, [table_b] x and
    z, [table_c] x only; they share the row of hour 1. *)
Definition table_a : DataFrame Z :=
  mkDataFrame None (DatetimeAware 0) [hour 0; hour 1]
    [("x", {[ hour 0 := 1; hour 1 := 2 ]}); ("y", {[ hour 0 := 5 ]})].
Definition table_b : DataFrame Z :=
  mkDataFrame None (DatetimeAware 0) [hour 1; hour 2]
    [("x", {[ hour 1 := 20; hour 2 := 30 ]}); ("z", {[ hour 2 := 7 ]})].
Definition table_c : DataFrame Z :=
  mkDataFrame None (DatetimeAware 0) [hour 1; hour 2]
    [("x", {[ hour 1 := 20; hour 2 := 30 ]})].
Definition no_rows : DataFrame Z :=
  mkDataFrame (Some "time") (DatetimeAware 0) [] [("x", ∅)].

(** The table of day 0 as [get] accumulates it. *)
Definition day0_frame : DataFrame Z :=
  mkDataFrame (Some "time") (DatetimeAware 0) [hour 0; hour 1; hour 2]
    [("x", {[ hour 0 := 1; hour 1 := 2; hour 2 := 3 ]})].

(** A store whose bucket width is zero, the table [get] accumulates from
    both days, and a [strptime] that accepts no text. *)
Definition db_zero : CsvDatabase :=
  mkCsvDatabase "data" false "%Y%m%d" 0 "time" false "." ",".
Definition both_days_frame : DataFrame Z :=
  mkDataFrame (Some "time") (DatetimeAware 0) [hour 0; hour 1; hour 2; hour 48; hour 49]
    [("x", {[ hour 0 := 1; hour 1 := 2; hour 2 := 3; hour 48 := 10; hour 49 := 20 ]});
     ("y", {[ hour 48 := 7 ]})].
Definition strptime_none (text format : string) : result Z := Raise ValueError.

(** Day 0 as above, and a chunk of day 1 that holds the row of hour 2
    once more, with another value for x and a value for y. *)
Definition day1_late : File Z :=
  Csv "time" (DateOffset 0) [hour 2; hour 24]
    [("x", {[ hour 2 := 99; hour 24 := 4 ]}); ("y", {[ hour 2 := 5 ]})].
Definition overlapping_days : World Z :=
  mkWorld {[ "data/0.csv" := day0; "data/1.csv" := day1_late ]} {[ "data" ]} [].

(** A file whose stamps carry the offset of one hour. *)
Definition offset_time : File Z :=
  Csv "time" (DateOffset (hour 1)) [hour 0; hour 1]
    [("x", {[ hour 0 := 1; hour 1 := 2 ]})].
Definition offset_files : World Z :=
  mkWorld {[ "data/0.csv" := offset_time ]} {[ "data" ]} [].

(** The range of a Timestamp. *)
Definition ts_min : Z := - 2 ^ 63 + 1.
Definition ts_max : Z := 2 ^ 63 - 1.
End Samples.

Section Database.
Context {V : Type}.
Variable vadd : V → V → V.
Variable vzero : V.
(** [time.strftime(format)] *)
Variable strftime : string → datetime → string.
Variable parse_keeps_offset : bool.
Variable self : CsvDatabase.
(** The earliest and the latest instant the time type in use holds (a
    Timestamp holds some 292 years on either side of 1970). *)
Variable min_instant max_instant : Z.

(** [d + dt.timedelta(...)]: the sum, or the error of a sum that cannot be
    held (OverflowError for a datetime, pandas' OutOfBoundsDatetime for a
    Timestamp). *)
Definition add_timedelta (d : datetime) (delta : Z) : result datetime :=
  if bool_decide (min_instant ≤ instant d + delta ≤ max_instant)
  then Ok (dt_add d delta) else Raise OverflowError.

Definition chunk_path (time : datetime) (subdir : string) : string :=
  path_join (self_dir self) [subdir; strftime (self_format self) time +:+ ".csv"].

(** [CsvDatabase.exists] *)
Definition exists_ (time : datetime) (subdir : string) : IO V bool :=
  os_path_exists (chunk_path time subdir).

(** Lines 223-228 of [CsvDatabase._read_file]: the conversions applied to
    a table that is not empty. *)
Definition normalize_index (csv : DataFrame V) : result (DataFrame V) :=
  if negb (empty csv) then
    let csv := if self_index_unix self then to_datetime_ms csv else csv in
    tzinfo ← index_tzinfo csv;
    match tzinfo with
    | None => tz_localize_utc csv
    | Some _ => Ok csv
    end
  else Ok csv.

(** [CsvDatabase._read_file] *)
Definition _read_file (path : string) : IO V (DataFrame V) :=
  csv ← read_csv parse_keeps_offset path (self_index_column self);
  csv ← lift (normalize_index csv);
  mret (set_index_name "time" csv).

(** The body of the loop of [CsvDatabase.get] (lines 147-148). *)
Definition load_chunk (time : datetime) (subdir : string) (data : DataFrame V)
  : IO V (DataFrame V) :=
  found ← exists_ time subdir;
  if found : bool then
    csv ← _read_file (chunk_path time subdir);
    lift (combine_first data csv)
  else mret data.

(** The loop of [CsvDatabase.get]; each turn consumes one unit of fuel. *)
Fixpoint get_loop (fuel : nat) (time end_ : datetime) (subdir : string)
    (data : DataFrame V) : IO V (DataFrame V) :=
  if dt_le time end_ then
    match fuel with
    | O => lift Diverge
    | S fuel' =>
        data ← load_chunk time subdir data;
        time ← lift (add_timedelta time (timedelta_hours (self_interval self)));
        get_loop fuel' time end_ subdir data
    end
  else mret data.

(** [(start - start.replace(hour=0, ...)).total_seconds() % interval] *)
Definition resample_offset (start : datetime) (interval : Z) : Z :=
  (instant start - instant (replace_midnight start)) `mod` interval.

(** [CsvDatabase.get].  [None <= end] and [None += timedelta] raise
    TypeError.  After line 143 [end] is never [None], so the test of line
    157 always holds and line 163 is not reached.  The bins of line 154 are
    as wide as [int(interval)]; the phase and the end take the interval
    itself. *)
Definition get (fuel : nat) (start end_ : option datetime) (interval : option Z)
    (subdir : string) : IO V (DataFrame V) :=
  let data := new_frame in
  let end_ := match end_ with None => start | Some e => Some e end in
  end_ ← lift (match end_ with
               | None => Raise TypeError
               | Some e => add_timedelta e (timedelta_hours (self_interval self)
                                            - timedelta_seconds 1)
               end);
  start ← lift (match start with None => Raise TypeError | Some s => Ok s end);
  data ← get_loop fuel start end_ subdir data;
  '(data, end_) ←
    match interval with
    | Some i =>
        if bool_decide (seconds 900 < i) then
          let offset := resample_offset start i in
          data ← lift (resample_sum vadd vzero (timedelta_seconds (whole_seconds i))
                         offset data);
          end_ ← lift (add_timedelta end_ i);
          mret (data, end_)
        else mret (data, end_)
    | None => mret (data, end_)
    end;
  if dt_gt start end_ then
    data ← lift (truncate_before (instant start) data);
    mret (head 1 data)
  else
    lift (loc_slice (instant start) (instant end_) data).

(** The read of the existing file inside [CsvDatabase._write_file]
    (lines 183-185). *)
Definition merge_read (path : string) : IO V (DataFrame V) :=
  csv ← read_csv parse_keeps_offset path "time";
  if negb (empty csv) then lift (tz_localize_utc csv) else mret csv.

(** [CsvDatabase._write_file].  The values of the table are floats
    already, so [astype(float)] of line 179 leaves them as they are. *)
Definition _write_file (path : string) (data : DataFrame V) : IO V () :=
  data ← lift (tz_convert_utc data);
  let data := set_index_name "time" data in
  is_file ← (if self_merge self then os_path_isfile path else mret false);
  data ← (if is_file : bool then
            csv ← merge_read path;
            if negb (empty csv) then
              if bool_decide (Forall (λ name, name ∈ column_names csv) (column_names data))
              then lift (combine_first data csv)
              else lift (concat_columns csv data)
            else mret data
          else mret data);
  to_csv path data.

(** [CsvDatabase.persist] *)
Definition persist (data : option (DataFrame V)) (time : option datetime)
    (file : option string) (subdir : string) : IO V () :=
  match data with
  | Some data =>
      time ← lift (match time with
                   | None => index0 data
                   | Some t => Ok (LTime t)
                   end);
      file ← lift (match file with
                   | None =>
                       match time with
                       | LTime t => Ok (strftime (self_format self) t +:+ ".csv")
                       | LInt _ => Raise AttributeError
                       end
                   | Some f => Ok f
                   end);
      let path := path_join (self_dir self) [subdir] in
      found ← os_path_exists path;
      _ ← (if found : bool then mret () else os_makedirs path);
      _write_file (path_join path [file]) data
  | None => mret ()
  end.

(** *** Vocabulary of the statements below *)

(** The end the loop and the slice work with (line 143). *)
Definition effective_end (start : datetime) (end_ : option datetime) : datetime :=
  dt_add (default start end_)
         (timedelta_hours (self_interval self) - timedelta_seconds 1).

(** [n] bucket-start candidates from [time] on. *)
Fixpoint candidates (n : nat) (time : datetime) : list datetime :=
  match n with
  | O => []
  | S n' => time :: candidates n' (dt_add time (timedelta_hours (self_interval self)))
  end.

(** How many candidates starting at [start] are not later than [end_]. *)
Definition n_candidates (start end_ : datetime) : nat :=
  if decide (instant start ≤ instant end_)
  then S (Z.to_nat ((instant end_ - instant start)
                      `div` timedelta_hours (self_interval self)))
  else O.

Fixpoint load_all (times : list datetime) (subdir : string) (data : DataFrame V)
  : IO V (DataFrame V) :=
  match times with
  | [] => mret data
  | time :: rest => data ← load_chunk time subdir data; load_all rest subdir data
  end.

(** What [_read_file] makes of the file at [path]. *)
Definition read_outcome (w : World V) (path : string) : result (DataFrame V) :=
  (run (_read_file path) w).1.

(** [os.path.exists(path)] holds. *)
Definition present (w : World V) (path : string) : Prop :=
  is_Some (files w !! path) ∨ dir_present w path = true.

Definition presentb (w : World V) (path : string) : bool :=
  bool_decide (is_Some (files w !! path)) || dir_present w path.

(** The table accumulated from the candidates [times], as a function of
    the files. *)
Fixpoint accumulated (w : World V) (times : list datetime) (subdir : string)
    (data : DataFrame V) : result (DataFrame V) :=
  match times with
  | [] => Ok data
  | time :: rest =>
      data ← (if presentb w (chunk_path time subdir)
              then csv ← read_outcome w (chunk_path time subdir); combine_first data csv
              else Ok data);
      accumulated w rest subdir data
  end.

(** Lines 152-155 and 157-161 on an accumulated table. *)
Definition resampled (start : datetime) (interval : option Z) (data : DataFrame V)
  : result (DataFrame V) :=
  match interval with
  | Some i =>
      if bool_decide (seconds 900 < i)
      then resample_sum vadd vzero (timedelta_seconds (whole_seconds i))
             (resample_offset start i) data
      else Ok data
  | None => Ok data
  end.

Definition final_end (end_ : datetime) (interval : option Z) : datetime :=
  match interval with
  | Some i => if bool_decide (seconds 900 < i) then dt_add end_ i else end_
  | None => end_
  end.

(** The times a query computes can all be held: [start], the end of line
    143, and the last candidate and the end of the slice moved once
    more. *)
Definition span_ok (start : datetime) (end_ : option datetime) (interval : option Z) : Prop :=
  min_instant ≤ instant start ∧
  min_instant ≤ instant (effective_end start end_) ∧
  instant (final_end (effective_end start end_) interval)
  + timedelta_hours (self_interval self) ≤ max_instant.

Definition final_slice (start end_ : datetime) (data : DataFrame V)
  : result (DataFrame V) :=
  if dt_gt start end_ then
    data ← truncate_before (instant start) data; Ok (head 1 data)
  else loc_slice (instant start) (instant end_) data.

(** What these lines give for a table whose labels are in increasing
    order. *)
Definition sorted_slice (start end_ : datetime) (data : DataFrame V) : DataFrame V :=
  if dt_gt start end_ then head 1 (with_rows data (drop_before (instant start) (index data)))
  else with_rows data (keep_upto (instant end_) (drop_before (instant start) (index data))).

(** The table [_write_file] hands to [to_csv], as a function of the files. *)
Definition merged_table (w : World V) (path : string) (data : DataFrame V)
  : result (DataFrame V) :=
  data ← tz_convert_utc data;
  let data := set_index_name "time" data in
  if self_merge self && bool_decide (is_Some (files w !! path)) then
    csv ← (run (merge_read path) w).1;
    if negb (empty csv) then
      if bool_decide (Forall (λ name, name ∈ column_names csv) (column_names data))
      then combine_first data csv
      else concat_columns csv data
    else Ok data
  else Ok data.

(** Lines 173-174 of [persist] as a function of the files and the
    directories: the outcome, and the directories afterwards. *)
Definition ensured_dir (w : World V) (path : string) : result () * gset string :=
  if presentb w path then (Ok (), dirs w)
  else let out := run (os_makedirs path) w in (out.1, dirs out.2).

(** The file [persist] writes to. *)
Definition target_path (subdir file : string) : string :=
  path_join (path_join (self_dir self) [subdir]) [file].

(** An event of a call that only looks at the store. *)
Definition is_lookup (e : fs_event) : Prop :=
  match e with
  | EvExists _ | EvRead _ => True
  | _ => False
  end.

(** The file name [persist] settles on (lines 167-170). *)
Definition resolved_file (data : DataFrame V) (time : option datetime)
    (file : option string) : result string :=
  time ← match time with
         | None => index0 data
         | Some t => Ok (LTime t)
         end;
  match file with
  | None =>
      match time with
      | LTime t => Ok (strftime (self_format self) t +:+ ".csv")
      | LInt _ => Raise AttributeError
      end
  | Some f => Ok f
  end.

(** A world that differs from [w] by lookups appended to the trace. *)
Definition only_looked (w w' : World V) : Prop :=
  files w' = files w ∧ dirs w' = dirs w ∧
  ∃ evs, trace w' = trace w ++ evs ∧ Forall is_lookup evs.

(** The first value there is in a list of cells. *)
Fixpoint first_value {A} (l : list (option A)) : option A :=
  match l with
  | [] => None
  | Some v :: _ => Some v
  | None :: rest => first_value rest
  end.

(** The tables read from the candidates whose chunk exists, in the order
    of the loop. *)
Fixpoint loaded (w : World V) (times : list datetime) (subdir : string)
  : result (list (DataFrame V)) :=
  match times with
  | [] => Ok []
  | time :: rest =>
      if presentb w (chunk_path time subdir) then
        csv ← read_outcome w (chunk_path time subdir);
        more ← loaded w rest subdir;
        Ok (csv :: more)
      else loaded w rest subdir
  end.

(** ** [DatabaseWeather] (th_e_core/weather.py) over a [CsvDatabase] *)

(** A time given as text or as a datetime. *)
Inductive TimeArg :=
  | AsText (text : string)
  | AsTime (time : datetime).

Section Weather.
(** [dt.datetime.strptime(text, format)], as the instant of the naive
    datetime read as UTC, and the clock [dt.datetime.utcnow()] reads. *)
Variable strptime : string → string → result Z.
Variable utcnow : Z.

(** [DatabaseWeather.get].  [datetime.replace] returns a new datetime and
    line 96 drops it: [start] stays the present instant. *)
Definition DatabaseWeather_get (fuel : nat) (start end_ : option TimeArg) (format : string)
    (interval : option Z) (subdir : string) : IO V (DataFrame V) :=
  start ← lift (match start with
                | None => Ok (mkDatetime utcnow 0)
                | Some (AsText text) => t ← strptime text format; Ok (mkDatetime t 0)
                | Some (AsTime time) => Ok time
                end);
  end_ ← lift (match end_ with
               | None => add_timedelta start (364 * day)
               | Some (AsText text) => t ← strptime text format; Ok (mkDatetime t 0)
               | Some (AsTime time) => Ok time
               end);
  get fuel (Some start) (Some end_) interval subdir.
End Weather.

(** * Properties *)

(** ** Index union *)

Section InsertBy.
Context {A : Type} (cmp : A → A → comparison).
Hypothesis cmp_eq : ∀ x y, cmp x y = Eq → x = y.

Lemma elem_of_insert_by x y l : y ∈ insert_by cmp x l ↔ y = x ∨ y ∈ l.
Proof.
  induction l as [|z l IH]; simpl.
  - rewrite list_elem_of_singleton. split; [auto|]. by intros [?|?%elem_of_nil].
  - destruct (cmp x z) eqn:E.
    + apply cmp_eq in E as ->. split; [auto|]. intros [->|?]; [left|done].
    + apply elem_of_cons.
    + rewrite !elem_of_cons, IH. tauto.
Qed.

Lemma elem_of_sorted_union a b y : y ∈ sorted_union cmp a b ↔ y ∈ a ∨ y ∈ b.
Proof.
  unfold sorted_union. rewrite <- elem_of_app.
  induction (a ++ b) as [|z l IH]; simpl; [done|].
  rewrite elem_of_insert_by, IH, elem_of_cons. tauto.
Qed.

Lemma elem_of_index_union `{EqDecision A} a b y :
  y ∈ index_union cmp a b ↔ y ∈ a ∨ y ∈ b.
Proof.
  unfold index_union.
  destruct b as [|z b]; [split; [auto|by intros [?|?%elem_of_nil]]|].
  case_decide as E; [rewrite <- E; tauto|].
  destruct a; [split; [auto|by intros [?%elem_of_nil|?]]|]. apply elem_of_sorted_union.
Qed.
End InsertBy.

Lemma Z_compare_eq x y : Z.compare x y = Eq → x = y.
Proof. apply Z.compare_eq_iff. Qed.

Lemma String_compare_eq x y : String.compare x y = Eq → x = y.
Proof. apply String.compare_eq_iff. Qed.

Lemma elem_of_union_labels a b t : t ∈ union_labels a b ↔ t ∈ a ∨ t ∈ b.
Proof. apply elem_of_index_union, Z_compare_eq. Qed.

Lemma elem_of_union_names a b c : c ∈ union_names a b ↔ c ∈ a ∨ c ∈ b.
Proof. apply elem_of_index_union, String_compare_eq. Qed.

Lemma insert_by_sorted x l :
StronglySorted Z.lt l → StronglySorted Z.lt (insert_by Z.compare x l).
Proof.
  induction 1 as [|z l Hl IH Hz]; simpl.
  - repeat constructor.
  - destruct (Z.compare_spec x z) as [->|Hlt|Hgt].
    + by constructor.
    + constructor; [by constructor|].
      constructor; [done|]. eapply Forall_impl; [exact Hz|]. intros; simpl in *; lia.
    + constructor; [done|].
      apply Forall_forall. intros y Hy.
      apply (elem_of_insert_by _ Z_compare_eq) in Hy as [->|Hy]; [lia|].
      rewrite Forall_forall in Hz. by apply Hz.
Qed.

Lemma sorted_union_sorted a b : StronglySorted Z.lt (sorted_union Z.compare a b).
Proof.
  unfold sorted_union. induction (a ++ b); simpl; [constructor|by apply insert_by_sorted].
Qed.

Lemma union_labels_sorted a b :
StronglySorted Z.lt a → StronglySorted Z.lt b → StronglySorted Z.lt (union_labels a b).
Proof.
  intros Ha Hb. unfold union_labels, index_union.
  destruct b; [done|]. case_decide; [done|]. destruct a; [done|]. apply sorted_union_sorted.
Qed.

(** ** Label slicing *)

Lemma drop_before_subseteq lo l t : t ∈ drop_before lo l → t ∈ l.
Proof.
  induction l as [|x l IH]; simpl; [done|].
  case_decide; [|done]. intros. right. auto.
Qed.

Lemma elem_of_drop_before lo l t :
StronglySorted Z.lt l → t ∈ drop_before lo l ↔ t ∈ l ∧ lo ≤ t.
Proof.
  induction 1 as [|x l Hl IH Hx]; simpl;
    [split; [by intros ?%elem_of_nil|by intros [?%elem_of_nil _]]|].
  rewrite Forall_forall in Hx. case_decide as E.
  - rewrite IH, elem_of_cons. split; [tauto|]. intros [[->|?] ?]; [lia|tauto].
  - rewrite !elem_of_cons. split; [|tauto].
    intros [->|Ht]; [split; [tauto|lia]|]. specialize (Hx _ Ht). split; [tauto|lia].
Qed.

Lemma drop_before_sorted lo l :
StronglySorted Z.lt l → StronglySorted Z.lt (drop_before lo l).
Proof.
  induction 1 as [|x l Hl IH Hx]; simpl; [constructor|].
  case_decide; [done|by constructor].
Qed.

Lemma elem_of_keep_upto hi l t :
StronglySorted Z.lt l → t ∈ keep_upto hi l ↔ t ∈ l ∧ t ≤ hi.
Proof.
  induction 1 as [|x l Hl IH Hx]; simpl;
    [split; [by intros ?%elem_of_nil|by intros [?%elem_of_nil _]]|].
  rewrite Forall_forall in Hx. case_decide as E.
  - rewrite !elem_of_cons, IH. split; [|tauto]. intros [->|[? ?]]; [split; [tauto|lia]|tauto].
  - split; [by intros ?%elem_of_nil|].
    rewrite elem_of_cons. intros [[->|Ht] ?]; [lia|]. specialize (Hx _ Ht). lia.
Qed.

Lemma keep_upto_subseteq hi l t : t ∈ keep_upto hi l → t ∈ l.
Proof.
  induction l as [|x l IH]; simpl; [done|].
  case_decide; [|by intros ?%elem_of_nil].
  rewrite !elem_of_cons. intros [->|?]; auto.
Qed.

Lemma keep_upto_sorted hi l :
StronglySorted Z.lt l → StronglySorted Z.lt (keep_upto hi l).
Proof.
  induction 1 as [|x l Hl IH Hx]; simpl; [constructor|].
  case_decide; [|constructor]. constructor; [done|].
  apply Forall_forall. intros y Hy%keep_upto_subseteq.
  rewrite Forall_forall in Hx. auto.
Qed.

(** The closed range [lo, hi] of a sorted index. *)
Lemma elem_of_slice lo hi l t :
StronglySorted Z.lt l →
t ∈ keep_upto hi (drop_before lo l) ↔ t ∈ l ∧ lo ≤ t ≤ hi.
Proof.
  intros Hl. rewrite elem_of_keep_upto by by apply drop_before_sorted.
  rewrite elem_of_drop_before by done. tauto.
Qed.

(** ** Columns and cells *)

Section Cells.
Implicit Types (cols : list (string * gmap Z V)) (df this other : DataFrame V).

Lemma lookup_col_None c cols : lookup_col c cols = None ↔ c ∉ cols.*1.
Proof.
  induction cols as [|[n m] cols IH]; simpl.
  - split; [intros _; apply not_elem_of_nil|done].
  - case_decide as E.
    + split; [done|]. intros H. destruct H. subst. apply elem_of_cons; auto.
    + rewrite IH, not_elem_of_cons. split; [auto|tauto].
Qed.

Lemma lookup_col_Some c cols m : lookup_col c cols = Some m → (c, m) ∈ cols.
Proof.
  induction cols as [|[n m'] cols IH]; simpl; [done|].
  case_decide as E.
  - intros [= ->]. subst. apply elem_of_cons; auto.
  - intros ?%IH. apply elem_of_cons; auto.
Qed.

Lemma lookup_col_tabulate (f : string → gmap Z V) c names :
  lookup_col c ((λ n, (n, f n)) <$> names) = if decide (c ∈ names) then Some (f c) else None.
Proof.
  induction names as [|n names IH].
  - destruct (decide (c ∈ [])) as [E|E]; [by apply elem_of_nil in E|done].
  - cbn [fmap list_fmap lookup_col]. rewrite IH.
    destruct (decide (n = c)) as [->|Hne].
    + rewrite decide_True; [done|apply elem_of_cons; auto].
    + destruct (decide (c ∈ names)) as [E|E].
      * rewrite decide_True; [done|apply elem_of_cons; auto].
      * rewrite decide_False; [done|]. intros [?|?]%elem_of_cons; [congruence|done].
Qed.

Lemma cells_in_lookup rows cols c m t v :
  cells_in rows cols → lookup_col c cols = Some m → m !! t = Some v → t ∈ rows.
Proof.
  unfold cells_in. rewrite Forall_forall. intros Hin Hc%lookup_col_Some Ht.
  exact (Hin _ Hc t v Ht).
Qed.

Lemma cells_in_mono rows rows' cols :
  (∀ t, t ∈ rows → t ∈ rows') → cells_in rows cols → cells_in rows' cols.
Proof.
  intros Hsub. unfold cells_in. intros H. eapply Forall_impl; [exact H|].
  intros [n m] Hm k v Hk. apply Hsub. exact (Hm k v Hk).
Qed.

Lemma cell_in_index df c t v :
  cells_in (index df) (columns df) → cell df c t = Some v → t ∈ index df.
Proof.
  unfold cell. intros Hin. destruct (lookup_col c (columns df)) as [m|] eqn:E; simpl; [|done].
  eauto using cells_in_lookup.
Qed.

Lemma cell_None_no_column df c t : c ∉ column_names df → cell df c t = None.
Proof. intros H%lookup_col_None. unfold cell. by rewrite H. Qed.

Lemma empty_no_cells df c t :
  cells_in (index df) (columns df) → empty df = true → cell df c t = None.
Proof.
  intros Hin He. destruct (cell df c t) as [v|] eqn:E; [|done].
  pose proof (cell_in_index _ _ _ _ Hin E) as Ht.
  unfold empty in He. destruct (index df); [by apply elem_of_nil in Ht|].
  destruct (columns df) eqn:Ec; [|done].
  unfold cell in E. by rewrite Ec in E.
Qed.

Lemma cell_col_or_nan df c t : col_or_nan c (columns df) !! t = cell df c t.
Proof.
  unfold col_or_nan, cell. destruct (lookup_col c (columns df)); simpl; [done|].
  apply lookup_empty.
Qed.

(** Every cell of [this.combine_first(other)] is [this]'s value when there
    is one and [other]'s otherwise. *)
Lemma combine_first_cell this other r c t :
  cells_in (index this) (columns this) →
  cells_in (index other) (columns other) →
  combine_first this other = Ok r →
  cell r c t = match cell this c t with
               | Some v => Some v
               | None => cell other c t
               end.
Proof.
  intros Hs Ho. unfold combine_first.
  destruct (union_kind _ _) as [kind| |]; simpl; [|done..].
  set (idx := union_labels (index this) (index other)).
  set (names := union_names (column_names this) (column_names other)).
  destruct (empty _ && _) eqn:E1.
  { intros [= <-]. apply andb_true_iff in E1 as [E1 _].
    destruct (cell this c t) as [v|] eqn:Ec; [done|]. symmetry.
    destruct (cell other c t) as [v|] eqn:Eo; [|done]. exfalso.
    pose proof (cell_in_index _ _ _ _ Ho Eo) as Ht.
    assert (c ∈ column_names other) as Hc.
    { destruct (decide (c ∈ column_names other)); [done|].
      by rewrite cell_None_no_column in Eo. }
    unfold empty in E1. simpl in E1.
    assert (t ∈ idx) as Hti by (apply elem_of_union_labels; auto).
    assert (c ∈ names) as Hci by (apply elem_of_union_names; auto).
    destruct idx; [by apply elem_of_nil in Hti|].
    destruct names; [by apply elem_of_nil in Hci|]. done. }
  destruct (empty this && _) eqn:E2.
  { intros [= <-]. apply andb_true_iff in E2 as [E2 _].
    rewrite (empty_no_cells this c t Hs E2).
    unfold cell at 1. simpl. rewrite lookup_col_tabulate.
    destruct (decide (c ∈ names)) as [Hc|Hc]; simpl; [apply cell_col_or_nan|].
    symmetry. apply cell_None_no_column. intros Hc'. apply Hc.
    apply elem_of_union_names; auto. }
  intros [= <-]. unfold cell at 1. simpl. rewrite lookup_col_tabulate.
  destruct (decide (c ∈ names)) as [Hc|Hc]; simpl.
  - rewrite lookup_union, !cell_col_or_nan.
    destruct (cell this c t), (cell other c t); done.
  - rewrite !cell_None_no_column; [done|intros Hc'; apply Hc; apply elem_of_union_names; auto..].
Qed.

Lemma combine_first_index this other r t :
  combine_first this other = Ok r →
  t ∈ index r → t ∈ index this ∨ t ∈ index other.
Proof.
  unfold combine_first.
  destruct (union_kind _ _) as [kind| |]; simpl; [|done..].
  destruct (empty _ && _); [intros [= <-]; auto|].
  destruct (empty this && _); intros [= <-]; simpl; apply elem_of_union_labels.
Qed.

Lemma cells_in_tabulate rows (f : string → gmap Z V) names :
  (∀ c t v, f c !! t = Some v → t ∈ rows) →
  cells_in rows ((λ n, (n, f n)) <$> names).
Proof.
  intros Hf. unfold cells_in. apply Forall_fmap, Forall_forall.
  intros n _ t v Ht. simpl in *. eauto.
Qed.

Lemma combine_first_ok this other r :
  frame_ok this → frame_ok other → combine_first this other = Ok r → frame_ok r.
Proof.
  intros [Hss Hsc] [Hos Hoc]. unfold combine_first.
  destruct (union_kind _ _) as [kind| |]; simpl; [|done..].
  destruct (empty _ && _); [by intros [= <-]|].
  destruct (empty this && _); intros [= <-]; split; simpl;
    try (by apply union_labels_sorted); apply cells_in_tabulate; intros c t v.
  - rewrite cell_col_or_nan. intros Hc%cell_in_index; [|done].
    apply elem_of_union_labels; auto.
  - rewrite lookup_union, !cell_col_or_nan.
    destruct (cell this c t) eqn:E1, (cell other c t) eqn:E2; simpl; try done;
      intros _; apply elem_of_union_labels;
      eauto using cell_in_index.
Qed.
End Cells.

(** ** Running calls *)

Lemma run_bind {A B} (m : IO V A) (k : A → IO V B) w :
run (m ≫= k) w =
match run m w with
| (Ok a, w') => run (k a) w'
| (Raise e, w') => (Raise e, w')
| (Diverge, w') => (Diverge, w')
end.
Proof. reflexivity. Qed.

Lemma run_ret {A} (a : A) (w : World V) : run (mret a) w = (Ok a, w).
Proof. reflexivity. Qed.

Lemma run_lift {A} (r : result A) (w : World V) : run (lift r) w = (r, w).
Proof. reflexivity. Qed.

Lemma res_bind_Ok {A B} (r : result A) (k : A → result B) b :
r ≫= k = Ok b → ∃ a, r = Ok a ∧ k a = Ok b.
Proof. destruct r; simpl; [eauto|done..]. Qed.

Implicit Types (w : World V) (df csv data acc : DataFrame V).

Lemma _read_file_run path w :
  run (_read_file path) w =
  (match files w !! path with
   | None => Raise (if dir_present w path then IsADirectoryError else FileNotFoundError)
   | Some f =>
       csv ← parse_csv parse_keeps_offset (self_index_column self) f;
       csv ← normalize_index csv;
       Ok (set_index_name "time" csv)
   end, log (EvRead path) w).
Proof.
  unfold _read_file. rewrite run_bind. unfold read_csv. cbn [run].
  destruct (files w !! path) as [f|]; [|done].
  destruct (parse_csv _ _ f) as [csv| |]; [|done..].
  rewrite run_bind, run_lift. cbn [mbind result_bind res_bind].
  by destruct (normalize_index csv).
Qed.

Lemma read_outcome_eq path w :
  read_outcome w path =
  match files w !! path with
  | None => Raise (if dir_present w path then IsADirectoryError else FileNotFoundError)
  | Some f =>
      csv ← parse_csv parse_keeps_offset (self_index_column self) f;
      csv ← normalize_index csv;
      Ok (set_index_name "time" csv)
  end.
Proof. unfold read_outcome. by rewrite _read_file_run. Qed.

Lemma _read_file_outcome path w :
  run (_read_file path) w = (read_outcome w path, log (EvRead path) w).
Proof. by rewrite read_outcome_eq, _read_file_run. Qed.

Lemma dir_present_dirs w w' p : dirs w' = dirs w → dir_present w' p = dir_present w p.
Proof. intros Hd. unfold dir_present. by rewrite Hd. Qed.

(** The outcome of a read depends on the files and directories only. *)
Lemma read_outcome_files path w w' :
  files w' = files w → dirs w' = dirs w → read_outcome w' path = read_outcome w path.
Proof. intros Hf Hd. by rewrite !read_outcome_eq, Hf, (dir_present_dirs w w'). Qed.

Lemma read_outcome_Ok_file path w csv :
  read_outcome w path = Ok csv → is_Some (files w !! path).
Proof. rewrite read_outcome_eq. destruct (files w !! path); [eauto|done]. Qed.

(** ** Frames read from well-formed files are well-formed *)

Global Instance ms_to_ns_inj : Inj (=) (=) ms_to_ns.
Proof. intros x y. unfold ms_to_ns. lia. Qed.

Lemma cells_in_mangle {B} (P : B → Prop) seen (cols : list (string * B)) :
  Forall (λ nc, P nc.2) cols → Forall (λ nc, P nc.2) (mangle_dupe_cols seen cols).
Proof.
  intros H. revert seen. induction H as [|[n m] cols Hm _ IH]; intros seen; simpl.
  - constructor.
  - constructor; [exact Hm|apply IH].
Qed.

Lemma parse_csv_ok index_col f csv :
  file_ok f → parse_csv parse_keeps_offset index_col f = Ok csv → frame_ok csv.
Proof.
  destruct f as [|h st rows cols]; simpl; [done|].
  intros [Hs Hc]. case_decide; [|done]. intros [= <-]. split; simpl; [done|].
  by apply (cells_in_mangle (map_Forall (λ k _, k ∈ rows))).
Qed.

Lemma to_datetime_ms_ok csv : frame_ok csv → frame_ok (to_datetime_ms csv).
Proof.
  intros [Hs Hc]. unfold to_datetime_ms. destruct (index_kind csv); try done.
  split; simpl.
  - eapply (StronglySorted_fmap _ Z.lt Z.lt); [|done].
    intros x y. unfold ms_to_ns. lia.
  - unfold cells_in in *. apply Forall_fmap. eapply Forall_impl; [exact Hc|].
    intros [n m] Hm k v. simpl in *.
    intros (i & -> & Hi)%lookup_kmap_Some; [|apply _].
    apply list_elem_of_fmap. exists i. split; [done|]. exact (Hm i v Hi).
Qed.

Lemma tz_localize_utc_ok csv r : frame_ok csv → tz_localize_utc csv = Ok r → frame_ok r.
Proof. unfold tz_localize_utc. destruct (index_kind csv); try done. by intros ? [= <-]. Qed.

Lemma normalize_index_ok csv r : frame_ok csv → normalize_index csv = Ok r → frame_ok r.
Proof.
  intros Hok. unfold normalize_index. destruct (negb (empty csv)); [|by intros [= <-]].
  assert (frame_ok (if self_index_unix self then to_datetime_ms csv else csv)) as Hok'.
  { destruct (self_index_unix self); [by apply to_datetime_ms_ok|done]. }
  destruct (index_tzinfo _) as [[off|]| |]; simpl; try done.
  - by intros [= <-].
  - by apply tz_localize_utc_ok.
Qed.

Lemma read_outcome_ok path w csv :
  world_ok w → read_outcome w path = Ok csv → frame_ok csv.
Proof.
  intros Hw. rewrite read_outcome_eq.
  destruct (files w !! path) as [f|] eqn:Ef; [|done].
  intros (c1 & H1 & (c2 & H2 & [= <-])%res_bind_Ok)%res_bind_Ok.
  apply (parse_csv_ok _ _ _ (Hw _ _ Ef)) in H1.
  by apply (normalize_index_ok _ _ H1) in H2.
Qed.

(** ** The loop of [get] *)

Lemma load_chunk_run time subdir data w :
  run (load_chunk time subdir data) w =
  let p := chunk_path time subdir in
  if presentb w p
  then (csv ← read_outcome w p; combine_first data csv,
        log (EvRead p) (log (EvExists p) w))
  else (Ok data, log (EvExists p) w).
Proof.
  unfold load_chunk. rewrite run_bind. unfold exists_, os_path_exists. cbn [run].
  fold (presentb w (chunk_path time subdir)).
  destruct (presentb w _); [|done].
  rewrite run_bind, _read_file_outcome.
  rewrite (read_outcome_files _ w) by done.
  destruct (read_outcome w _); done.
Qed.

Lemma load_chunk_world time subdir data w :
  let w' := (run (load_chunk time subdir data) w).2 in
  files w' = files w ∧ dirs w' = dirs w.
Proof. rewrite load_chunk_run. simpl. by destruct (presentb w _). Qed.

Lemma accumulated_files times subdir data w w' :
  files w' = files w → dirs w' = dirs w →
  accumulated w' times subdir data = accumulated w times subdir data.
Proof.
  intros Hf Hd. revert data. induction times as [|time rest IH]; intros data; simpl; [done|].
  unfold presentb. rewrite Hf, (dir_present_dirs w w') by done.
  rewrite (read_outcome_files _ w w' Hf Hd).
  match goal with |- ?r ≫= _ = _ => destruct r as [d| |] end; simpl; [apply IH|done..].
Qed.

(** The loop over an explicit list of candidates computes [accumulated]
    and changes nothing but the trace. *)
Lemma load_all_run times subdir data w :
  let out := run (load_all times subdir data) w in
  out.1 = accumulated w times subdir data ∧
  files out.2 = files w ∧ dirs out.2 = dirs w.
Proof.
  revert data w. induction times as [|time rest IH]; intros data w; [done|].
  cbn [load_all accumulated]. rewrite run_bind.
  pose proof (load_chunk_world time subdir data w) as [Hf Hd].
  rewrite load_chunk_run in *. cbn zeta in *.
  destruct (presentb w _).
  - destruct (_ ≫= _) as [d| |]; cbn [fst snd] in *; try done.
    destruct (IH d (log (EvRead (chunk_path time subdir))
                      (log (EvExists (chunk_path time subdir)) w))) as (H1 & H2 & H3).
    rewrite H1, H2, H3. split; [|done].
    by apply accumulated_files.
  - cbn [fst snd mbind result_bind res_bind] in *.
    destruct (IH data (log (EvExists (chunk_path time subdir)) w)) as (H1 & H2 & H3).
    rewrite H1, H2, H3. split; [|done].
    by apply accumulated_files.
Qed.

Lemma presentb_files w w' p :
  files w' = files w → dirs w' = dirs w → presentb w' p = presentb w p.
Proof. intros Hf Hd. unfold presentb. by rewrite Hf, (dir_present_dirs w w'). Qed.

Lemma presentb_present w p : presentb w p = true ↔ present w p.
Proof.
  unfold presentb, present.
  rewrite orb_true_iff, !bool_decide_eq_true. tauto.
Qed.

(** What the loop leaves in the trace: one existence test per candidate,
    in order, and reads of paths that exist only. *)
Lemma load_all_trace times subdir data w :
  let out := run (load_all times subdir data) w in
  ∃ evs, trace out.2 = trace w ++ evs ∧
         (∀ p, p ∈ was_read evs → presentb w p = true) ∧
         (∀ acc, out.1 = Ok acc → probed evs = (λ t, chunk_path t subdir) <$> times).
Proof.
  revert data w. induction times as [|time rest IH]; intros data w.
  { exists []. cbn. rewrite app_nil_r. split; [done|]. split; [|done].
    by intros p ?%elem_of_nil. }
  cbn [load_all]. rewrite run_bind, load_chunk_run. cbn zeta.
  set (p := chunk_path time subdir).
  destruct (presentb w p) eqn:Ep.
  - destruct (_ ≫= _) as [d| |]; cbn [fst snd].
    + destruct (IH d (log (EvRead p) (log (EvExists p) w))) as (evs & Ht & Hr & Hp).
      exists (EvExists p :: EvRead p :: evs). rewrite Ht. cbn [log trace].
      split; [by rewrite <- !app_assoc|]. split.
      * cbn. intros q [->|Hq]%elem_of_cons; [done|].
        rewrite <- (Hr q Hq). symmetry. by apply presentb_files.
      * intros acc Hacc.
        change (probed (EvExists p :: EvRead p :: evs)) with (p :: probed evs).
        by rewrite (Hp acc Hacc).
    + exists [EvExists p; EvRead p]. cbn. split; [by rewrite <- app_assoc|].
      split; [|done]. by intros q ->%list_elem_of_singleton.
    + exists [EvExists p; EvRead p]. cbn. split; [by rewrite <- app_assoc|].
      split; [|done]. by intros q ->%list_elem_of_singleton.
  - destruct (IH data (log (EvExists p) w)) as (evs & Ht & Hr & Hp).
    exists (EvExists p :: evs). rewrite Ht. cbn [log trace].
    split; [by rewrite <- !app_assoc|]. split.
    + cbn. intros q Hq. rewrite <- (Hr q Hq). symmetry. by apply presentb_files.
    + intros acc Hacc.
      change (probed (EvExists p :: evs)) with (p :: probed evs).
      by rewrite (Hp acc Hacc).
Qed.

Lemma timedelta_hours_pos : 0 < self_interval self → 0 < timedelta_hours (self_interval self).
Proof. unfold timedelta_hours, second. lia. Qed.

Lemma n_candidates_step time end_ :
  0 < self_interval self → instant time ≤ instant end_ →
  n_candidates time end_ =
  S (n_candidates (dt_add time (timedelta_hours (self_interval self))) end_).
Proof.
  intros Hpos%timedelta_hours_pos Hle. unfold n_candidates. simpl.
  set (step := timedelta_hours (self_interval self)) in *.
  rewrite decide_True by done. f_equal.
  case_decide as E.
  - replace (instant end_ - (instant time + step))
      with (instant end_ - instant time + (-1) * step) by lia.
    rewrite Z.div_add by lia.
    assert (1 ≤ (instant end_ - instant time) `div` step).
    { apply Z.div_le_lower_bound; lia. }
    lia.
  - rewrite Z.div_small by lia. done.
Qed.

Lemma n_candidates_after time end_ :
  ¬ instant time ≤ instant end_ → n_candidates time end_ = O.
Proof. intros. unfold n_candidates. by rewrite decide_False. Qed.

Lemma add_timedelta_Ok d delta :
  min_instant ≤ instant d + delta ≤ max_instant →
  add_timedelta d delta = Ok (dt_add d delta).
Proof. intros. unfold add_timedelta. by rewrite bool_decide_eq_true_2. Qed.

Lemma add_timedelta_inv d delta r :
  add_timedelta d delta = Ok r →
  r = dt_add d delta ∧ min_instant ≤ instant d + delta ≤ max_instant.
Proof. unfold add_timedelta. case_bool_decide; [by intros [= <-]|done]. Qed.

Lemma add_timedelta_returns d delta : add_timedelta d delta ≠ Diverge.
Proof. unfold add_timedelta. by case_bool_decide. Qed.

(** With a positive bucket width, enough fuel and times that can be held,
    the loop of [get] is the loop over its candidates: [start],
    [start + width], ... up to [end]. *)
Lemma get_loop_load_all fuel time end_ subdir data w :
  0 < self_interval self →
  (n_candidates time end_ ≤ fuel)%nat →
  min_instant ≤ instant time →
  instant end_ + timedelta_hours (self_interval self) ≤ max_instant →
  run (get_loop fuel time end_ subdir data) w =
  run (load_all (candidates (n_candidates time end_) time) subdir data) w.
Proof.
  intros Hpos. pose proof (timedelta_hours_pos Hpos) as Hstep. revert time data w.
  induction fuel as [|fuel IH]; intros time data w Hn Hmin Hmax; cbn [get_loop];
    unfold dt_le; case_bool_decide as E.
  - rewrite n_candidates_step in Hn by done. lia.
  - by rewrite n_candidates_after.
  - rewrite n_candidates_step in * by done. cbn [candidates load_all].
    rewrite !run_bind. destruct (run (load_chunk _ _ _) w) as [[d| |] w']; [|done..].
    rewrite run_bind, run_lift, add_timedelta_Ok by lia.
    apply IH; [lia|cbn; lia|done].
  - by rewrite n_candidates_after.
Qed.

(** A loop that returned had the fuel for its candidates and could hold
    their times. *)
Lemma get_loop_Ok fuel time end_ subdir data w d :
  0 < self_interval self →
  (run (get_loop fuel time end_ subdir data) w).1 = Ok d →
  (n_candidates time end_ ≤ fuel)%nat ∧
  run (get_loop fuel time end_ subdir data) w =
  run (load_all (candidates (n_candidates time end_) time) subdir data) w.
Proof.
  intros Hpos. revert time data w.
  induction fuel as [|fuel IH]; intros time data w; cbn [get_loop];
    unfold dt_le; case_bool_decide as E.
  - by rewrite run_lift.
  - rewrite n_candidates_after by done. split; [lia|done].
  - rewrite n_candidates_step by done. cbn [candidates load_all].
    rewrite !run_bind. destruct (run (load_chunk _ _ _) w) as [[d'| |] w']; [|done..].
    rewrite run_bind, run_lift.
    destruct (add_timedelta _ _) as [time'| |] eqn:Et; [|done..].
    apply add_timedelta_inv in Et as [-> _].
    intros [H1 H2]%IH. split; [lia|done].
  - rewrite n_candidates_after by done. split; [lia|done].
Qed.

Lemma elem_of_candidates n time t :
  t ∈ candidates n time ↔
  ∃ k, (k < n)%nat ∧ t = dt_add time (Z.of_nat k * timedelta_hours (self_interval self)).
Proof.
  revert time. induction n as [|n IH]; intros time; cbn [candidates].
  - split; [by intros ?%elem_of_nil|]. intros (k & ? & _). lia.
  - rewrite elem_of_cons, IH. split.
    + intros [->|(k & Hk & ->)].
      * exists O. split; [lia|]. destruct time. unfold dt_add. simpl. f_equal. lia.
      * exists (S k). split; [lia|]. unfold dt_add. simpl. f_equal. lia.
    + intros (k & Hk & ->). destruct k as [|k].
      * left. destruct time. unfold dt_add. simpl. f_equal. lia.
      * right. exists k. split; [lia|]. unfold dt_add. simpl. f_equal. lia.
Qed.

Lemma above_900_pos i : seconds 900 < i → 0 < i.
Proof. unfold seconds, second. lia. Qed.

Lemma whole_seconds_ge i : seconds 900 < i → 900 ≤ whole_seconds i.
Proof.
  unfold seconds, whole_seconds, second. intros H.
  apply Z.quot_le_lower_bound; lia.
Qed.

Lemma bin_width_pos i : seconds 900 < i → 0 < timedelta_seconds (whole_seconds i).
Proof. intros H%whole_seconds_ge. unfold timedelta_seconds, second. lia. Qed.

Lemma final_end_ge_effective end_ interval :
  instant end_ ≤ instant (final_end end_ interval).
Proof.
  unfold final_end. destruct interval as [i|]; [|done].
  case_bool_decide as Ei; [|done]. apply above_900_pos in Ei. cbn. lia.
Qed.

(** Lines 152-161 of [get] on the accumulated table. *)
Lemma get_tail start end_ interval data w :
  min_instant ≤ instant end_ →
  instant (final_end end_ interval) ≤ max_instant →
  run ('(data, end_) ←
         match interval with
         | Some i =>
             if bool_decide (seconds 900 < i) then
               data ← lift (resample_sum vadd vzero (timedelta_seconds (whole_seconds i))
                              (resample_offset start i) data);
               end_ ← lift (add_timedelta end_ i);
               mret (data, end_)
             else mret (data, end_)
         | None => mret (data, end_)
         end;
       if dt_gt start end_ then
         data ← lift (truncate_before (instant start) data);
         mret (head 1 data)
       else
         lift (loc_slice (instant start) (instant end_) data)) w =
  (data ← resampled start interval data;
   final_slice start (final_end end_ interval) data, w).
Proof.
  intros Hmin Hmax. rewrite run_bind.
  assert (∀ (d : DataFrame V) (e : datetime),
    run (if dt_gt start e
         then data ← lift (truncate_before (instant start) d); mret (head 1 data)
         else lift (loc_slice (instant start) (instant e) d)) w
    = (final_slice start e d, w)) as Hfin.
  { intros d e. unfold final_slice. destruct (dt_gt start e); [|done].
    rewrite run_bind, run_lift. by destruct (truncate_before _ _). }
  unfold resampled, final_end in *.
  destruct interval as [i|]; [|rewrite run_ret; apply Hfin].
  case_bool_decide as Ei; [|rewrite run_ret; apply Hfin].
  rewrite run_bind, run_lift.
  destruct (resample_sum _ _ _ _ _) as [d| |]; [|done..].
  rewrite run_bind, run_lift, add_timedelta_Ok, run_ret.
  - apply Hfin.
  - cbn in Hmax. pose proof (above_900_pos i Ei). lia.
Qed.

(** [get] with a start, as a function of the files; its trace is that
    of the loop. *)
Lemma get_run fuel start end_ interval subdir w :
  0 < self_interval self →
  let E := effective_end start end_ in
  let times := candidates (n_candidates start E) start in
  (n_candidates start E ≤ fuel)%nat →
  span_ok start end_ interval →
  run (get fuel (Some start) end_ interval subdir) w =
  (acc ← accumulated w times subdir new_frame;
   data ← resampled start interval acc;
   final_slice start (final_end E interval) data,
   (run (load_all times subdir new_frame) w).2).
Proof.
  intros Hpos E times Hn (Hs & HE & Hmax). unfold get.
  pose proof (timedelta_hours_pos Hpos) as Hstep.
  pose proof (final_end_ge_effective E interval) as Hfe. fold E in HE, Hmax.
  assert (match end_ with None => Some start | Some e => Some e end
          = Some (default start end_)) as -> by by destruct end_.
  cbn zeta. rewrite run_bind, run_lift.
  rewrite add_timedelta_Ok by (unfold E, effective_end in *; cbn in *; lia).
  fold (effective_end start end_). fold E.
  rewrite run_bind, run_lift, run_bind, get_loop_load_all by (done || lia). fold times.
  pose proof (load_all_run times subdir new_frame w) as (H1 & _).
  destruct (run (load_all _ _ _) w) as [r w']. cbn [fst snd] in *. subst r.
  destruct (accumulated _ _ _ _) as [acc| |]; [|done..].
  cbn [mbind result_bind res_bind]. apply get_tail; lia.
Qed.

(** A [get] that returned is the [get] of the lemma above. *)
Lemma get_Ok fuel start end_ interval subdir w data :
  0 < self_interval self →
  let E := effective_end start end_ in
  let times := candidates (n_candidates start E) start in
  (run (get fuel (Some start) end_ interval subdir) w).1 = Ok data →
  (n_candidates start E ≤ fuel)%nat ∧
  (acc ← accumulated w times subdir new_frame;
   data ← resampled start interval acc;
   final_slice start (final_end E interval) data) = Ok data ∧
  (run (get fuel (Some start) end_ interval subdir) w).2
  = (run (load_all times subdir new_frame) w).2.
Proof.
  intros Hpos E times. unfold get.
  assert (match end_ with None => Some start | Some e => Some e end
          = Some (default start end_)) as -> by by destruct end_.
  cbn zeta. rewrite run_bind, run_lift.
  destruct (add_timedelta _ _) as [e| |] eqn:Ee; [|done..].
  apply add_timedelta_inv in Ee as [-> Hr]. fold (effective_end start end_). fold E.
  rewrite run_bind, run_lift, run_bind.
  destruct (run (get_loop _ _ _ _ _) w) as [r w'] eqn:El.
  destruct r as [acc| |]; [|done..].
  destruct (get_loop_Ok fuel start E subdir new_frame w acc Hpos) as [Hn Hl];
    [by rewrite El|].
  rewrite El in Hl. fold times in Hl.
  pose proof (load_all_run times subdir new_frame w) as (H1 & _).
  rewrite <- Hl in H1 |- *. cbn [fst snd] in H1 |- *. rewrite <- H1.
  cbn [mbind result_bind res_bind].
  assert (∀ (d : DataFrame V) (e : datetime),
    run (if dt_gt start e
         then data ← lift (truncate_before (instant start) d); mret (head 1 data)
         else lift (loc_slice (instant start) (instant e) d)) w'
    = (final_slice start e d, w')) as Hfin.
  { intros d e. unfold final_slice. destruct (dt_gt start e); [|done].
    rewrite run_bind, run_lift. by destruct (truncate_before _ _). }
  rewrite run_bind. unfold resampled, final_end.
  destruct interval as [i|]; [|rewrite run_ret, Hfin; done].
  destruct (bool_decide (seconds 900 < i)); [|rewrite run_ret, Hfin; done].
  rewrite run_bind, run_lift.
  destruct (resample_sum _ _ _ _ _) as [d| |]; [|done..].
  rewrite run_bind, run_lift.
  destruct (add_timedelta _ _) as [e| |] eqn:Ee; [|done..].
  apply add_timedelta_inv in Ee as [-> _]. rewrite run_ret, Hfin. done.
Qed.

(** ** Rows kept by a slice *)

Lemma StronglySorted_lt_le (l : list Z) : StronglySorted Z.lt l → Sorted Z.le l.
Proof.
  induction 1 as [|x l Hl IH Hx]; constructor; [done|].
  destruct Hx as [|y r Hy _]; constructor. lia.
Qed.

Lemma filter_lt_nil lo (l : list Z) :
  Forall (λ y, lo ≤ y) l → filter (λ x, x < lo) l = [].
Proof.
  induction 1 as [|y l Hy _ IH]; [done|]. rewrite filter_cons_False by lia. done.
Qed.

Lemma filter_le_nil hi (l : list Z) :
  Forall (λ y, hi < y) l → filter (λ x, x ≤ hi) l = [].
Proof.
  induction 1 as [|y l Hy _ IH]; [done|]. rewrite filter_cons_False by lia. done.
Qed.

Lemma drop_filter_lt lo (l : list Z) :
  StronglySorted Z.lt l →
  drop (length (filter (λ x, x < lo) l)) l = drop_before lo l.
Proof.
  induction 1 as [|x l Hl IH Hx]; [done|]. cbn [drop_before]. case_decide.
  - rewrite filter_cons_True by done. exact IH.
  - rewrite filter_cons_False, filter_lt_nil; [done| |done].
    eapply Forall_impl; [exact Hx|]. intros y ?. simpl in *. lia.
Qed.

Lemma take_filter_le hi (l : list Z) :
  StronglySorted Z.lt l →
  take (length (filter (λ x, x ≤ hi) l)) l = keep_upto hi l.
Proof.
  induction 1 as [|x l Hl IH Hx]; [done|]. cbn [keep_upto]. case_decide.
  - rewrite filter_cons_True by done. cbn. by rewrite IH.
  - rewrite filter_cons_False, filter_le_nil; [done| |done].
    eapply Forall_impl; [exact Hx|]. intros y ?. simpl in *. lia.
Qed.

Lemma filter_le_drop_before lo hi (l : list Z) :
  StronglySorted Z.lt l → lo ≤ hi →
  (length (filter (λ x : Z, (x ≤ hi)%Z) l) - length (filter (λ x : Z, (x < lo)%Z) l))%nat
  = length (filter (λ x, x ≤ hi) (drop_before lo l)).
Proof.
  intros Hs Hle. induction Hs as [|x l Hl IH Hx]; [done|]. cbn [drop_before]. case_decide.
  - rewrite !filter_cons_True by lia. cbn. exact IH.
  - rewrite (filter_cons_False (λ x, x < lo)), filter_lt_nil; [cbn; lia| |done].
    eapply Forall_impl; [exact Hx|]. intros y ?. simpl in *. lia.
Qed.

Lemma slice_rows_from_sorted lo (l : list Z) :
  StronglySorted Z.lt l → slice_rows (Some lo) None l = Ok (drop_before lo l).
Proof.
  intros Hs. unfold slice_rows, slice_bound.
  rewrite decide_True by by apply StronglySorted_lt_le.
  cbn [mbind result_bind res_bind]. f_equal.
  rewrite drop_filter_lt by done. apply take_ge.
  rewrite <- (drop_filter_lt lo l Hs), length_drop. lia.
Qed.

Lemma slice_rows_sorted lo hi (l : list Z) :
  StronglySorted Z.lt l → lo ≤ hi →
  slice_rows (Some lo) (Some hi) l = Ok (keep_upto hi (drop_before lo l)).
Proof.
  intros Hs Hle. unfold slice_rows, slice_bound.
  rewrite !decide_True by by apply StronglySorted_lt_le.
  cbn [mbind result_bind res_bind]. f_equal.
  rewrite drop_filter_lt, filter_le_drop_before by done.
  apply take_filter_le, drop_before_sorted, Hs.
Qed.

Lemma lookup_col_map_snd (g : gmap Z V → gmap Z V) c (cols : list (string * gmap Z V)) :
  lookup_col c ((λ nc : string * gmap Z V, (nc.1, g nc.2)) <$> cols)
  = g <$> lookup_col c cols.
Proof.
  induction cols as [|[n m] cols IH]; [done|].
  cbn [fmap list_fmap lookup_col fst snd]. case_decide; [done|apply IH].
Qed.

Lemma with_rows_cell df rows c t :
  cell (with_rows df rows) c t = if decide (t ∈ rows) then cell df c t else None.
Proof.
  unfold cell, with_rows, restrict_columns. cbn [columns].
  rewrite lookup_col_map_snd. destruct (lookup_col c (columns df)) as [m|]; simpl.
  - rewrite map_lookup_filter. destruct (m !! t) as [v|]; simpl.
    + destruct (decide (t ∈ rows)) as [E|E];
        [by rewrite option_guard_True|by rewrite option_guard_False].
    + by destruct (decide (t ∈ rows)).
  - by destruct (decide (t ∈ rows)).
Qed.

Lemma with_rows_ok df rows :
  StronglySorted Z.lt rows → frame_ok (with_rows df rows).
Proof.
  intros Hs. split; [done|]. unfold with_rows, restrict_columns, cells_in. cbn [index columns].
  apply Forall_fmap, Forall_forall. intros [n m] _ k v. simpl.
  by intros [_ ?]%map_lookup_filter_Some.
Qed.

(** Lines 157-161 on a table whose labels increase: the slice is that of
    [sorted_slice], unless the labels are integers. *)
Lemma final_slice_eq start end_ data :
  StronglySorted Z.lt (index data) →
  final_slice start end_ data =
  if decide (index_kind data = Int64Index) then Raise TypeError
  else Ok (sorted_slice start end_ data).
Proof.
  intros Hs. unfold final_slice, sorted_slice, dt_gt. case_bool_decide as E.
  - unfold truncate_before. rewrite decide_True by by apply StronglySorted_lt_le.
    rewrite slice_rows_from_sorted by done.
    by destruct (index_kind data).
  - unfold loc_slice. rewrite slice_rows_sorted by (done || lia).
    by destruct (index_kind data).
Qed.

Lemma final_slice_Ok start end_ data r :
  StronglySorted Z.lt (index data) →
  final_slice start end_ data = Ok r → r = sorted_slice start end_ data.
Proof. intros Hs. rewrite final_slice_eq by done. case_decide; [done|]. by intros [= <-]. Qed.

(** The rows of the result of lines 157-161, for a sorted table. *)
Lemma sorted_slice_index start end_ data t :
  StronglySorted Z.lt (index data) →
  t ∈ index (sorted_slice start end_ data) →
  t ∈ index data ∧ instant start ≤ t.
Proof.
  intros Hs. unfold sorted_slice. destruct (dt_gt start end_); cbn.
  - intros Ht%subseteq_take. by apply elem_of_drop_before in Ht.
  - rewrite elem_of_slice by done. intros [? ?]. split; [done|lia].
Qed.

Lemma sorted_slice_range start end_ data t :
  StronglySorted Z.lt (index data) →
  instant start ≤ instant end_ →
  t ∈ index (sorted_slice start end_ data) ↔
  t ∈ index data ∧ instant start ≤ t ≤ instant end_.
Proof.
  intros Hs Hle. unfold sorted_slice, dt_gt. rewrite bool_decide_eq_false_2 by lia.
  cbn. by apply elem_of_slice.
Qed.


(** ** Bins of a resampling *)

Lemma foldr_min_le x r t : t ∈ x :: r → foldr Z.min x r ≤ t.
Proof.
  induction r as [|y r IH]; simpl.
  - intros ->%list_elem_of_singleton. lia.
  - rewrite !elem_of_cons. intros [->|[->|Ht]]; [|lia|].
    + assert (foldr Z.min x r ≤ x) by (apply IH; left). lia.
    + assert (foldr Z.min x r ≤ t) by (apply IH; by right). lia.
Qed.

Lemma foldr_max_ge x r t : t ∈ x :: r → t ≤ foldr Z.max x r.
Proof.
  induction r as [|y r IH]; simpl.
  - intros ->%list_elem_of_singleton. lia.
  - rewrite !elem_of_cons. intros [->|[->|Ht]]; [|lia|].
    + assert (x ≤ foldr Z.max x r) by (apply IH; left). lia.
    + assert (t ≤ foldr Z.max x r) by (apply IH; by right). lia.
Qed.

(** The labels are the multiples of the width, counted from the origin,
    from the bin of the earliest row to the bin of the latest. *)
Lemma elem_of_bin_labels wd base off x r b :
  0 < wd →
  let first := foldr Z.min x r in
  let last := foldr Z.max x r in
  let origin := bin_origin base off first in
  b ∈ bin_labels wd base off (x :: r) ↔
  ∃ k, (first - origin) `div` wd ≤ k ≤ (last - origin) `div` wd ∧ b = origin + k * wd.
Proof.
  intros Hwd first last origin. unfold bin_labels. fold first last origin.
  assert (first ≤ last) as Hfl.
  { transitivity x; [apply foldr_min_le|apply foldr_max_ge]; left. }
  pose proof (Z.div_mod (first - origin) wd ltac:(lia)) as Hf.
  pose proof (Z.div_mod (last - origin) wd ltac:(lia)) as Hl.
  pose proof (Z.mod_pos_bound (first - origin) wd Hwd) as Hfb.
  pose proof (Z.mod_pos_bound (last - origin) wd Hwd) as Hlb.
  set (qf := (first - origin) `div` wd) in *. set (ql := (last - origin) `div` wd) in *.
  set (rf := (first - origin) `mod` wd) in *. set (rl := (last - origin) `mod` wd) in *.
  assert ((if decide (0 < rf) then first - rf else first) = origin + qf * wd) as ->.
  { case_decide; lia. }
  assert ((if decide (0 < rl) then last + (wd - rl) else last + wd) = origin + (ql + 1) * wd)
    as -> by (case_decide; lia).
  replace (origin + (ql + 1) * wd - (origin + qf * wd)) with ((ql + 1 - qf) * wd) by lia.
  rewrite Z.div_mul by lia.
  rewrite list_elem_of_fmap. setoid_rewrite elem_of_seqZ. split.
  - intros (k & -> & Hk). exists (qf + k). split; lia.
  - intros (k & Hk & ->). exists (k - qf). split; lia.
Qed.

(** Every label sits at the phase [base] from the midnight that anchors
    the bins. *)
Lemma bin_labels_phase wd base off x r b :
  0 < wd →
  b ∈ bin_labels wd base off (x :: r) →
  (b - bin_origin base off (foldr Z.min x r)) `mod` wd = 0.
Proof.
  intros Hwd (k & _ & ->)%elem_of_bin_labels; [|done].
  replace (_ + k * wd - _) with (k * wd) by lia. apply Z.mod_mul. lia.
Qed.


Lemma bin_labels_sorted wd base off idx :
  0 < wd → StronglySorted Z.lt (bin_labels wd base off idx).
Proof.
  intros Hwd. unfold bin_labels. destruct idx as [|x r]; [constructor|].
  cbn zeta. generalize (if decide (0 < (foldr Z.min x r - bin_origin base off (foldr Z.min x r)) `mod` wd)
     then foldr Z.min x r - (foldr Z.min x r - bin_origin base off (foldr Z.min x r)) `mod` wd
     else foldr Z.min x r). intros f.
  match goal with |- context [seqZ 0 ?n] => generalize n end. intros n.
  eapply (StronglySorted_fmap _ Z.lt Z.lt); [intros a b ?; nia|].
  unfold seqZ. eapply (StronglySorted_fmap _ lt Z.lt); [intros a b ?; lia|].
  generalize (Z.to_nat n) as m. generalize O as st. intros st m. revert st.
  induction m as [|m IH]; intros st; simpl; constructor; [apply IH|].
  apply Forall_forall. intros y Hy%elem_of_seq. lia.
Qed.



Lemma resample_sum_index wd base df r :
  resample_sum vadd vzero wd base df = Ok r →
  is_datetime (index_kind df) = true ∧
  index r = bin_labels wd base (kind_offset (index_kind df)) (index df).
Proof. unfold resample_sum. destruct (is_datetime _); [|done]. by intros [= <-]. Qed.

(** ** What the accumulated table is made of *)

Lemma accumulated_inv (P : DataFrame V → Prop) w times subdir data acc :
  (∀ time d csv r,
      time ∈ times → presentb w (chunk_path time subdir) = true →
      read_outcome w (chunk_path time subdir) = Ok csv →
      P d → combine_first d csv = Ok r → P r) →
  P data → accumulated w times subdir data = Ok acc → P acc.
Proof.
  revert data. induction times as [|time rest IH]; intros data Hstep Hdata; cbn [accumulated].
  { by intros [= <-]. }
  destruct (presentb w _) eqn:Ep.
  - intros (d & (csv & Hcsv & Hd)%res_bind_Ok & Hacc)%res_bind_Ok.
    apply (IH d); [|by eapply Hstep; [left|..]|done].
    intros ???????. eapply Hstep; [by right|done..].
  - cbn [mbind result_bind res_bind]. apply IH; [|done].
    intros ???????. eapply Hstep; [by right|done..].
Qed.

Lemma new_frame_ok : frame_ok (new_frame : DataFrame V).
Proof. split; constructor. Qed.

Lemma accumulated_ok w times subdir data acc :
  world_ok w → frame_ok data → accumulated w times subdir data = Ok acc → frame_ok acc.
Proof.
  intros Hw. apply (accumulated_inv frame_ok). intros time d csv r _ _ Hcsv Hd.
  apply combine_first_ok; [done|]. by eapply read_outcome_ok.
Qed.

(** No later chunk changes a cell the accumulator already holds. *)
Lemma accumulated_keeps w times subdir data acc c t v :
  world_ok w → frame_ok data → accumulated w times subdir data = Ok acc →
  cell data c t = Some v → cell acc c t = Some v.
Proof.
  intros Hw Hok Hacc Hv.
  enough (frame_ok acc ∧ cell acc c t = Some v) as [_ ?]; [done|].
  revert Hacc. apply (accumulated_inv (λ d, frame_ok d ∧ cell d c t = Some v)); [|done].
  intros time d csv r _ _ Hcsv [[? Hd] Hc] Hr.
  pose proof (read_outcome_ok _ _ _ Hw Hcsv) as [? Hcells].
  split; [apply (combine_first_ok d csv); done|].
  by rewrite (combine_first_cell d csv r c t Hd Hcells Hr), Hc.
Qed.

(** A cell of the accumulated table comes from the accumulator or from a
    chunk that was read. *)
Lemma accumulated_cell_origin w times subdir data acc c t v :
  world_ok w → frame_ok data → accumulated w times subdir data = Ok acc →
  cell acc c t = Some v →
  cell data c t = Some v ∨
  ∃ time csv, time ∈ times ∧ read_outcome w (chunk_path time subdir) = Ok csv ∧
              cell csv c t = Some v.
Proof.
  intros Hw Hok Hacc.
  enough (frame_ok acc ∧ (cell acc c t = Some v → cell data c t = Some v ∨
          ∃ time csv, time ∈ times ∧ read_outcome w (chunk_path time subdir) = Ok csv ∧
                      cell csv c t = Some v)) as [_ ?]; [done|].
  revert Hacc.
  apply (accumulated_inv (λ d, frame_ok d ∧ (cell d c t = Some v → cell data c t = Some v ∨
          ∃ time csv, time ∈ times ∧ read_outcome w (chunk_path time subdir) = Ok csv ∧
                      cell csv c t = Some v))); [|by auto].
  intros time d csv r Ht _ Hcsv [[? Hd] Hc] Hr.
  pose proof (read_outcome_ok _ _ _ Hw Hcsv) as [? Hcells].
  split; [apply (combine_first_ok d csv); done|].
  rewrite (combine_first_cell d csv r c t Hd Hcells Hr).
  destruct (cell d c t) as [v'|]; [auto|]. intros Hv. right. eauto.
Qed.



Lemma sorted_slice_subseteq start end_ data t :
  t ∈ index (sorted_slice start end_ data) → t ∈ index data.
Proof.
  unfold sorted_slice. destruct (dt_gt start end_); cbn.
  - intros Ht%subseteq_take. by eapply drop_before_subseteq.
  - intros Ht%keep_upto_subseteq. by eapply drop_before_subseteq.
Qed.

Lemma candidate_in_range start end_ (k : nat) :
  0 < self_interval self →
  (k < n_candidates start end_)%nat ↔
  instant start + Z.of_nat k * timedelta_hours (self_interval self) ≤ instant end_.
Proof.
  intros Hpos%timedelta_hours_pos. unfold n_candidates.
  set (step := timedelta_hours (self_interval self)) in *.
  case_decide as E; [|split; [lia|nia]].
  pose proof (Z.div_mod (instant end_ - instant start) step ltac:(lia)).
  pose proof (Z.mod_pos_bound (instant end_ - instant start) step Hpos).
  assert (0 ≤ (instant end_ - instant start) `div` step) by (apply Z.div_pos; lia).
  split; intros; [nia|].
  assert (Z.of_nat k ≤ (instant end_ - instant start) `div` step); [nia|lia].
Qed.

Lemma normalize_index_returns csv : normalize_index csv ≠ Diverge.
Proof.
  unfold normalize_index. destruct (negb _); [|done].
  generalize (if self_index_unix self then to_datetime_ms csv else csv). intros d.
  unfold index_tzinfo, tz_localize_utc. by destruct (index_kind d).
Qed.

Lemma read_outcome_returns w path : read_outcome w path ≠ Diverge.
Proof.
  rewrite read_outcome_eq. destruct (files w !! path) as [f|]; [|done].
  destruct f as [|h st rows cols]; [done|]. unfold parse_csv. case_decide; [|done].
  cbn [mbind result_bind res_bind].
  match goal with |- context [normalize_index ?d] =>
    pose proof (normalize_index_returns d); by destruct (normalize_index d) end.
Qed.

Lemma combine_first_returns (this other : DataFrame V) :
  combine_first this other ≠ Diverge.
Proof.
  unfold combine_first.
  destruct (union_kind _ _) as [kind| |] eqn:E; cbn [mbind result_bind res_bind]; [|done|].
  - destruct (_ && _); [done|]. by destruct (_ && _).
  - unfold union_kind in E. by destruct (index_kind this), (index_kind other).
Qed.

Lemma accumulated_returns w times subdir data : accumulated w times subdir data ≠ Diverge.
Proof.
  revert data. induction times as [|time rest IH]; intros data; [done|].
  cbn [accumulated]. destruct (presentb w _); [|apply IH].
  pose proof (read_outcome_returns w (chunk_path time subdir)).
  destruct (read_outcome w _) as [csv| |]; cbn [mbind result_bind res_bind]; [|done..].
  pose proof (combine_first_returns data csv).
  destruct (combine_first data csv); [apply IH|done..].
Qed.

(** ** The claims *)

(** C10.  Calling [get] without a start raises an exception: with neither
    start nor end a TypeError, from adding a timedelta to [None] (line
    143); with an end alone a TypeError from comparing [None] with it (line
    146), unless the sum of line 143 cannot be held, which is an
    OverflowError.  The world, trace included, is left as it was: no
    file-system call was made.  The start is in effect a required
    argument. *)
Theorem get_without_start_raises fuel end_ interval subdir w :
  run (get fuel None None interval subdir) w = (Raise TypeError, w) ∧
  run (get fuel None end_ interval subdir) w =
  (Raise (match end_ with
          | Some e =>
              if bool_decide (min_instant
                              ≤ instant e + (timedelta_hours (self_interval self)
                                             - timedelta_seconds 1)
                              ≤ max_instant)
              then TypeError else OverflowError
          | None => TypeError
          end), w).
Proof.
  split; [reflexivity|]. destruct end_ as [e|]; [|reflexivity].
  unfold get, add_timedelta. cbn zeta. rewrite run_bind, run_lift.
  by case_bool_decide.
Qed.

(** C3, amended.  For an absent table ([None]) [persist] is a no-op: it
    returns without error and leaves the world, trace included, as it
    was. *)
Theorem persist_absent_is_noop time file subdir w :
  run (persist None time file subdir) w = (Ok (), w).
Proof. reflexivity. Qed.



Lemma resampled_none start interval data :
  (∀ i, interval = Some i → i ≤ seconds 900) →
  resampled start interval data = Ok data ∧
  ∀ end_, final_end end_ interval = end_.
Proof.
  intros Hi. unfold resampled, final_end. destruct interval as [i|]; [|done].
  specialize (Hi i eq_refl). by rewrite bool_decide_eq_false_2 by lia.
Qed.

Lemma resampled_sorted start interval data r :
  StronglySorted Z.lt (index data) →
  resampled start interval data = Ok r → StronglySorted Z.lt (index r).
Proof.
  intros Hs. unfold resampled. destruct interval as [i|]; [|by intros [= <-]].
  case_bool_decide; [|by intros [= <-]].
  intros [_ ->]%resample_sum_index. by apply bin_labels_sorted, bin_width_pos.
Qed.


Lemma final_end_ge start end_ interval :
  0 < self_interval self →
  instant (default start end_) ≤ instant (final_end (effective_end start end_) interval).
Proof.
  intros Hpos. unfold final_end, effective_end.
  assert (0 ≤ timedelta_hours (self_interval self) - timedelta_seconds 1)
    by (unfold timedelta_hours, timedelta_seconds, second; lia).
  destruct interval as [i|]; [|simpl; lia].
  case_bool_decide as Hi; [|simpl; lia].
  apply above_900_pos in Hi. simpl. lia.
Qed.


(** The branch of line 159 is taken only when [start] is later than the
    extended end; the loop has then loaded nothing, and without resampling
    the call returns the empty table and touches no file. *)
Lemma get_beyond_extended_end fuel start end_ interval subdir w :
  0 < self_interval self →
  instant (effective_end start end_) < instant start →
  (∀ i, interval = Some i → i ≤ seconds 900) →
  span_ok start end_ interval →
  run (get fuel (Some start) end_ interval subdir) w = (Ok new_frame, w).
Proof.
  intros Hpos Hlt Hi Hspan.
  assert (n_candidates start (effective_end start end_) = O) as Hn
    by (apply n_candidates_after; lia).
  rewrite get_run by (rewrite ?Hn; done || lia). rewrite Hn. cbn [candidates accumulated load_all].
  cbn [mbind result_bind res_bind]. rewrite run_ret.
  destruct (resampled_none start interval new_frame Hi) as [-> ->].
  cbn [res_bind snd]. unfold final_slice, dt_gt. by rewrite bool_decide_eq_true_2 by done.
Qed.




Lemma read_outcome_index_name w path csv :
  read_outcome w path = Ok csv → index_name csv = Some "time".
Proof.
  rewrite read_outcome_eq. destruct (files w !! path) as [f|]; [|done].
  by intros (c1 & _ & (c2 & _ & [= <-])%res_bind_Ok)%res_bind_Ok.
Qed.

Lemma union_kind_object k : union_kind k ObjectIndex = Ok k.
Proof. by destruct k. Qed.

(** C8, amended.  Reading a header-only chunk file raises no error and
    yields a table without rows whose index is named [time], the name
    every table read from a chunk carries; uniting it into an accumulator
    and slicing it raise no error either. *)
Theorem read_header_only_file path w h st cols :
  files w !! path = Some (Csv h st [] cols) →
  h = self_index_column self →
  ∃ csv, run (_read_file path) w = (Ok csv, log (EvRead path) w) ∧
         index csv = [] ∧ index_name csv = Some "time" ∧
         column_names csv = (mangle_dupe_cols [h] cols).*1 ∧
         (∀ w' path' csv', read_outcome w' path' = Ok csv' → index_name csv' = Some "time") ∧
         (∀ acc, ∃ r, combine_first acc csv = Ok r ∧ index r = index acc) ∧
         (∀ lo hi, ∃ r, loc_slice lo hi csv = Ok r ∧ index r = []).
Proof.
  intros Hf Hh.
  exists (mkDataFrame (Some "time") ObjectIndex [] (mangle_dupe_cols [h] cols)).
  split; [|split; [done|split; [done|split; [done|split; [|split; [|by eexists]]]]]].
  - rewrite _read_file_run, Hf. unfold parse_csv. by rewrite decide_True.
  - intros w' path' csv'. apply read_outcome_index_name.
  - intros acc. unfold combine_first. cbn [index_kind index].
    rewrite union_kind_object. cbn [mbind result_bind res_bind].
    assert (union_labels (index acc) [] = index acc) as -> by done.
    destruct (_ && _); [eauto|]. destruct (_ && _); eauto.
Qed.

(** C9, amended.  The read of the existing file inside a merge-write uses
    the fixed index column [time], converts no epoch milliseconds and
    localizes to UTC; it gives what [_read_file] gives for that file, trace
    included, when the configured index column is [time], [index_unix] is
    off and the parsed index is not already tz-aware. *)
Theorem merge_read_agrees path w :
  self_index_column self = "time" →
  self_index_unix self = false →
  (∀ h st rows cols off,
      files w !! path = Some (Csv h st rows cols) →
      parsed_kind parse_keeps_offset st rows ≠ DatetimeAware off) →
  run (merge_read path) w = run (_read_file path) w.
Proof.
  intros Hcol Hunix Hkind. rewrite _read_file_run. unfold merge_read.
  rewrite run_bind. unfold read_csv. cbn [run]. rewrite Hcol.
  destruct (files w !! path) as [f|] eqn:Ef; [|done].
  destruct f as [|h st rows cols]; [done|]. unfold parse_csv.
  case_decide as Eh; [|done]. cbn [mbind result_bind res_bind].
  unfold normalize_index. rewrite Hunix.
  set (csv := mkDataFrame _ _ _ _). destruct (negb (empty csv)); [|done].
  rewrite run_lift. unfold index_tzinfo, tz_localize_utc. subst csv. cbn [index_kind].
  specialize (Hkind h st rows cols). 
  destruct (parsed_kind parse_keeps_offset st rows) as [| | |off]; try done.
  by destruct (Hkind off).
Qed.

(** ** Further properties of the store *)

Lemma merge_read_run path w :
  run (merge_read path) w = ((run (merge_read path) w).1, log (EvRead path) w).
Proof.
  unfold merge_read. rewrite run_bind. unfold read_csv. cbn [run].
  destruct (files w !! path) as [f|]; [|done].
  destruct (parse_csv _ _ f) as [csv| |]; [|done..].
  destruct (negb (empty csv)); [|done]. rewrite run_lift. done.
Qed.

Lemma merge_read_eq path w :
  (run (merge_read path) w).1 =
  match files w !! path with
  | None => Raise (if dir_present w path then IsADirectoryError else FileNotFoundError)
  | Some f =>
      csv ← parse_csv parse_keeps_offset "time" f;
      if negb (empty csv) then tz_localize_utc csv else Ok csv
  end.
Proof.
  unfold merge_read. rewrite run_bind. unfold read_csv. cbn [run].
  destruct (files w !! path) as [f|]; [|done].
  destruct (parse_csv _ _ f) as [csv| |]; [|done..].
  cbn [mbind result_bind res_bind]. destruct (negb (empty csv)); [|done]. by rewrite run_lift.
Qed.

Lemma merge_read_files path w w' :
  files w' = files w → dirs w' = dirs w →
  (run (merge_read path) w').1 = (run (merge_read path) w).1.
Proof. intros Hf Hd. by rewrite !merge_read_eq, Hf, (dir_present_dirs w w'). Qed.

(** [_write_file] as a function of the files: it stores [merged_table] at
    [path] when that is a table and changes no file otherwise; it never
    changes the directories. *)
Lemma _write_file_run path data w :
  let out := run (_write_file path data) w in
  out.1 = (_ ← merged_table w path data; Ok ()) ∧
  dirs out.2 = dirs w ∧
  files out.2 = match merged_table w path data with
                | Ok d => <[path := render_csv d]> (files w)
                | _ => files w
                end.
Proof.
  unfold _write_file, merged_table. rewrite run_bind, run_lift.
  destruct (tz_convert_utc data) as [d| |]; [|done..].
  cbn [mbind result_bind res_bind]. rewrite run_bind.
  destruct (self_merge self); cbn [andb].
  - unfold os_path_isfile. cbn [run].
    destruct (bool_decide (is_Some (files w !! path))).
    + rewrite !run_bind, merge_read_run.
      rewrite (merge_read_files path w (log (EvIsFile path) w)) by done.
      destruct ((run (merge_read path) w).1) as [csv| |]; [|done..].
      cbn [mbind result_bind res_bind]. destruct (negb (empty csv)).
      * destruct (bool_decide _); rewrite run_lift.
        -- by destruct (combine_first _ csv).
        -- by destruct (concat_columns csv _).
      * by rewrite run_ret.
    + by rewrite run_bind, run_ret.
  - by rewrite run_ret, run_bind, run_ret.
Qed.

Lemma merged_table_files path data w w' :
  files w' = files w → merged_table w' path data = merged_table w path data.
Proof.
  intros Hf. unfold merged_table. rewrite Hf, !merge_read_eq, Hf.
  destruct (files w !! path) as [f|]; [done|].
  rewrite bool_decide_eq_false_2 by by intros [? ?]. by rewrite andb_false_r.
Qed.

(** [persist] of a table as a function of the files and directories. *)
Lemma persist_run data time file subdir w :
  let out := run (persist (Some data) time file subdir) w in
  let path := path_join (self_dir self) [subdir] in
  let written := f ← resolved_file data time file;
                 _ ← (ensured_dir w path).1;
                 d ← merged_table w (target_path subdir f) data;
                 Ok (f, d) in
  out.1 = (_ ← written; Ok ()) ∧
  files out.2 = match written with
                | Ok (f, d) => <[target_path subdir f := render_csv d]> (files w)
                | _ => files w
                end ∧
  dirs out.2 = match resolved_file data time file with
               | Ok _ => (ensured_dir w path).2
               | _ => dirs w
               end.
Proof.
  unfold persist, resolved_file. rewrite run_bind, run_lift.
  destruct (match time with None => index0 data | Some t => Ok (LTime t) end)
    as [lbl| |]; [|done..].
  cbn [mbind result_bind res_bind]. rewrite run_bind, run_lift.
  destruct (match file with
            | None => match lbl with
                      | LTime t => Ok (strftime (self_format self) t +:+ ".csv")
                      | LInt _ => Raise AttributeError
                      end
            | Some f => Ok f
            end) as [f| |]; [|done..].
  cbn [mbind result_bind res_bind]. rewrite run_bind. unfold os_path_exists. cbn [run].
  fold (presentb w (path_join (self_dir self) [subdir])).
  fold (target_path subdir f). unfold ensured_dir.
  destruct (presentb w _) eqn:Ep; rewrite run_bind.
  - rewrite run_ret.
    destruct (_write_file_run (target_path subdir f) data
                (log (EvExists (path_join (self_dir self) [subdir])) w)) as (H1 & H2 & H3).
    rewrite (merged_table_files _ _ w) in H1, H3 by done.
    rewrite H1, H2, H3. cbn [fst snd mbind result_bind res_bind].
    by destruct (merged_table _ _ _).
  - assert (∀ w1, files w1 = files w → dirs w1 = dirs w →
              (run (os_makedirs (path_join (self_dir self) [subdir])) w1).1
              = (run (os_makedirs (path_join (self_dir self) [subdir])) w).1 ∧
              files (run (os_makedirs (path_join (self_dir self) [subdir])) w1).2 = files w ∧
              dirs (run (os_makedirs (path_join (self_dir self) [subdir])) w1).2
              = dirs (run (os_makedirs (path_join (self_dir self) [subdir])) w).2) as Hmk.
    { intros w1 Hf Hd. unfold os_makedirs, dir_present. cbn [run]. rewrite Hf, Hd.
      destruct (components _); [done|].
      destruct (bool_decide (Exists _ _)); [done|]. by destruct (_ || _). }
    destruct (Hmk (log (EvExists (path_join (self_dir self) [subdir])) w) eq_refl eq_refl)
      as (Hm1 & Hm2 & Hm3).
    destruct (run (os_makedirs _) (log _ w)) as [r w'] eqn:Ew. cbn [fst snd] in Hm1, Hm2, Hm3.
    rewrite <- Hm1, <- Hm3. cbn [fst snd].
    destruct r as [[]| |]; [|done..].
    destruct (_write_file_run (target_path subdir f) data w') as (H1 & H2 & H3).
    rewrite (merged_table_files _ _ w) in H1, H3 by done.
    rewrite H1, H2, H3, Hm2. cbn [fst snd mbind result_bind res_bind].
    by destruct (merged_table _ _ _).
Qed.


(** X2.  After a call of [persist] with a time and no file name that
    returned without error, [exists] holds for that time; so it does for
    the first label of the table when no time was given either. *)
Theorem persist_then_exists data time subdir w t :
  time = Some t ∨ (time = None ∧ index0 data = Ok (LTime t)) →
  (run (persist (Some data) time None subdir) w).1 = Ok () →
  (run (exists_ t subdir) (run (persist (Some data) time None subdir) w).2).1 = Ok true.
Proof.
  intros Ht. pose proof (persist_run data time None subdir w) as H. cbn zeta in H.
  set (out := run (persist (Some data) time None subdir) w) in *. clearbody out.
  destruct H as (H1 & H2 & _). rewrite H1. clear H1.
  assert (resolved_file data time None = Ok (strftime (self_format self) t +:+ ".csv")) as Hf.
  { unfold resolved_file. by destruct Ht as [->|[-> ->]]. }
  rewrite Hf in *. cbn [mbind result_bind res_bind] in *.
  destruct (ensured_dir _ _).1 as [[]| |]; cbn [mbind result_bind res_bind] in *; [|done..].
  destruct (merged_table _ _ _) as [d| |]; cbn [mbind result_bind res_bind] in *; [|done..].
  intros _. unfold exists_, os_path_exists. cbn [run fst]. rewrite H2.
  change (chunk_path t subdir) with (target_path subdir (strftime (self_format self) t +:+ ".csv")).
  rewrite lookup_insert_eq. rewrite bool_decide_eq_true_2 by eauto. done.
Qed.

Lemma only_looked_refl w : only_looked w w.
Proof. split; [done|]. split; [done|]. exists []. by rewrite app_nil_r. Qed.

Lemma only_looked_trans w1 w2 w3 : only_looked w1 w2 → only_looked w2 w3 → only_looked w1 w3.
Proof.
  intros (Hf1 & Hd1 & evs1 & Ht1 & He1) (Hf2 & Hd2 & evs2 & Ht2 & He2).
  split; [congruence|]. split; [congruence|]. exists (evs1 ++ evs2).
  split; [by rewrite Ht2, Ht1, app_assoc|by apply Forall_app].
Qed.

Lemma load_chunk_only_looked time subdir data w :
  only_looked w (run (load_chunk time subdir data) w).2.
Proof.
  rewrite load_chunk_run. cbn zeta. set (p := chunk_path time subdir).
  destruct (presentb w p); cbn [snd]; unfold log; cbn [trace files dirs].
  - split; [done|]. split; [done|]. exists [EvExists p; EvRead p].
    split; [by rewrite <- app_assoc|]. by repeat constructor.
  - split; [done|]. split; [done|]. exists [EvExists p]. by repeat constructor.
Qed.

Lemma get_loop_only_looked fuel time end_ subdir data w :
  only_looked w (run (get_loop fuel time end_ subdir data) w).2.
Proof.
  revert time data w. induction fuel as [|fuel IH]; intros time data w; cbn [get_loop];
    destruct (dt_le time end_); try apply only_looked_refl.
  rewrite run_bind. pose proof (load_chunk_only_looked time subdir data w) as H.
  destruct (run (load_chunk time subdir data) w) as [[d| |] w']; [|done..].
  rewrite run_bind, run_lift. destruct (add_timedelta _ _) as [time'| |]; [|done..].
  eapply only_looked_trans; [exact H|apply IH].
Qed.

(** X3.  Whatever its arguments, its fuel and its outcome, [get] changes
    neither the files nor the directories of the store; all it adds to the
    trace are existence tests and reads. *)
Theorem get_only_looks fuel start end_ interval subdir w :
  let w' := (run (get fuel start end_ interval subdir) w).2 in
  files w' = files w ∧ dirs w' = dirs w ∧
  ∃ evs, trace w' = trace w ++ evs ∧ Forall is_lookup evs.
Proof.
  cbn zeta. fold (only_looked w (run (get fuel start end_ interval subdir) w).2).
  unfold get. rewrite run_bind, run_lift.
  destruct (match match end_ with None => start | Some e => Some e end with
            | None => Raise TypeError
            | Some e => add_timedelta e (timedelta_hours (self_interval self)
                                         - timedelta_seconds 1)
            end) as [E| |]; try apply only_looked_refl.
  rewrite run_bind, run_lift. destruct start as [s|]; [|apply only_looked_refl].
  rewrite run_bind. pose proof (get_loop_only_looked fuel s E subdir new_frame w) as H.
  destruct (run (get_loop fuel s E subdir new_frame) w) as [[d| |] w']; [|done..].
  cbn [snd] in H. rewrite run_bind.
  assert (∀ (d : DataFrame V) (e : datetime),
    only_looked w
      (run (if dt_gt s e
            then data ← lift (truncate_before (instant s) d); mret (head 1 data)
            else lift (loc_slice (instant s) (instant e) d)) w').2) as Hfin.
  { intros d' e. destruct (dt_gt s e); [|done].
    rewrite run_bind, run_lift. by destruct (truncate_before _ _). }
  destruct interval as [i|]; [destruct (bool_decide (seconds 900 < i))|].
  - rewrite run_bind, run_lift. destruct (resample_sum _ _ _ _ _); [|done..].
    rewrite run_bind, run_lift. destruct (add_timedelta _ _); [|done..].
    rewrite run_ret. apply Hfin.
  - rewrite run_ret. apply Hfin.
  - rewrite run_ret. apply Hfin.
Qed.


(** ** Tables that come back as they were *)

Lemma tabulate_columns_id (cols : list (string * gmap Z V)) :
  NoDup cols.*1 → (λ c, (c, col_or_nan c cols)) <$> cols.*1 = cols.
Proof.
  induction cols as [|[n m] cols IH]; [done|].
  cbn [fmap list_fmap fst]. intros [Hn Hnd]%NoDup_cons. f_equal.
  - unfold col_or_nan. cbn [lookup_col]. by rewrite decide_True.
  - rewrite <- (IH Hnd) at 2. apply list_fmap_ext. intros i c Hc. f_equal.
    unfold col_or_nan. cbn [lookup_col]. rewrite decide_False; [done|].
    intros ->. apply Hn. by eapply list_elem_of_lookup_2.
Qed.

Lemma mangle_dupe_cols_id {B} seen (cols : list (string * B)) :
  (∀ n, n ∈ cols.*1 → n ∉ seen) → NoDup cols.*1 → mangle_dupe_cols seen cols = cols.
Proof.
  revert seen. induction cols as [|[n m] cols IH]; intros seen Hseen Hnd; [done|].
  cbn [mangle_dupe_cols]. apply NoDup_cons in Hnd as [Hn Hnd].
  assert (filter (λ s, s = n) seen = []) as ->.
  { destruct (filter (λ s, s = n) seen) as [|x l] eqn:E; [done|].
    assert (x ∈ filter (λ s, s = n) seen) as [-> Hx]%list_elem_of_filter
      by (rewrite E; left).
    destruct (Hseen n); [left|done]. }
  cbn [length]. f_equal. apply IH; [|done].
  intros c Hc [->|Hin]%elem_of_cons; [done|].
  apply (Hseen c); [by right|done].
Qed.

Lemma restrict_columns_id rows (cols : list (string * gmap Z V)) :
  cells_in rows cols → restrict_columns rows cols = cols.
Proof.
  unfold cells_in, restrict_columns. induction 1 as [|[n m] cols Hm _ IH]; [done|].
  cbn [fmap list_fmap fst snd]. f_equal; [|exact IH]. f_equal.
  apply map_filter_id. intros i x Hi. exact (Hm i x Hi).
Qed.

Lemma drop_before_head lo x r : lo ≤ x → drop_before lo (x :: r) = x :: r.
Proof. intros. cbn. by rewrite decide_False by lia. Qed.

Lemma keep_upto_all hi l : Forall (λ t, t ≤ hi) l → keep_upto hi l = l.
Proof. induction 1 as [|x l Hx _ IH]; [done|]. cbn. rewrite decide_True by done. by f_equal. Qed.

Lemma with_rows_id df : cells_in (index df) (columns df) → with_rows df (index df) = df.
Proof. intros H. unfold with_rows. rewrite restrict_columns_id by done. by destruct df. Qed.

(** Uniting a chunk into the empty table of [get] gives the chunk's rows
    and cells. *)
Lemma combine_first_new_frame csv :
  ∃ acc, combine_first new_frame csv = Ok acc ∧ index acc = index csv ∧
         (empty csv = false → NoDup (column_names csv) → acc = csv) ∧
         (index_kind acc = index_kind csv ∨ index_kind acc = ObjectIndex).
Proof.
  unfold combine_first. change (column_names new_frame) with ([] : list string).
  cbn [index_kind index columns new_frame]. unfold column_names.
  assert (union_kind ObjectIndex (index_kind csv) = Ok (index_kind csv)) as ->
    by by destruct (index_kind csv).
  cbn [mbind result_bind res_bind].
  assert (union_labels [] (index csv) = index csv) as ->.
  { unfold union_labels, index_union. destruct (index csv); [done|]. by rewrite decide_False. }
  assert (union_names [] (columns csv).*1 = (columns csv).*1) as ->.
  { unfold union_names, index_union. destruct ((columns csv).*1); [done|].
    by rewrite decide_False. }
  destruct (empty _ && _) eqn:E1.
  { apply andb_true_iff in E1 as [E1 E2]. apply bool_decide_eq_true in E2.
    exists new_frame. split; [done|]. cbn [length] in E2.
    destruct (index csv) eqn:Ei; [|done]. split; [done|]. split; [|by right].
    intros He. unfold empty in He. by rewrite Ei in He. }
  change (empty new_frame) with true. cbn [andb]. rewrite bool_decide_eq_true_2 by done.
  eexists. split; [done|]. split; [done|]. split; [|by left]. intros He Hnd.
  rewrite tabulate_columns_id by done. unfold aligned_names. cbn [index new_frame].
  unfold empty in He. destruct csv as [n k idx cols]. cbn in *.
  destruct idx as [|x idx]; [done|]. by rewrite decide_False.
Qed.

Lemma n_candidates_single start :
  0 < self_interval self →
  n_candidates start (effective_end start None) = 1%nat.
Proof.
  intros Hpos. unfold n_candidates, effective_end. cbn [default dt_add instant].
  assert (0 ≤ timedelta_hours (self_interval self) - timedelta_seconds 1
          < timedelta_hours (self_interval self))
    by (unfold timedelta_hours, timedelta_seconds, second; lia).
  rewrite decide_True by lia.
  replace (instant start + (timedelta_hours (self_interval self) - timedelta_seconds 1)
           - instant start)
    with (timedelta_hours (self_interval self) - timedelta_seconds 1) by lia.
  by rewrite Z.div_small.
Qed.


(** What the store reads back from a file it wrote. *)
Lemma read_back path w d x rest :
  self_index_column self = "time" →
  files w !! path = Some (render_csv (mkDataFrame (Some "time") (DatetimeAware 0)
                                        (x :: rest) (columns d))) →
  columns d ≠ [] →
  NoDup ("time" :: column_names d) →
  read_outcome w path
  = Ok (mkDataFrame (Some "time") (DatetimeAware 0) (x :: rest) (columns d)).
Proof.
  intros Hcol Hf Hne [Ht Hnd]%NoDup_cons. rewrite read_outcome_eq, Hf.
  unfold render_csv, parse_csv. cbn [index_name index_kind index columns default stamp_text].
  rewrite Hcol, decide_True by done. rewrite mangle_dupe_cols_id; [|..|done].
  2:{ intros n Hn ->%list_elem_of_singleton. done. }
  cbn [mbind result_bind res_bind]. unfold normalize_index, empty.
  cbn [index columns parsed_kind]. destruct (columns d) as [|c cs]; [done|]. cbn [negb].
  destruct parse_keeps_offset, (self_index_unix self); reflexivity.
Qed.



(** ** Merge on write *)

Lemma union_labels_cons_r a y r : union_labels a (y :: r) ≠ [].
Proof.
  intros H. assert (y ∈ union_labels a (y :: r)) as Hy
    by (apply elem_of_union_labels; right; left).
  rewrite H in Hy. by apply elem_of_nil in Hy.
Qed.

Lemma union_names_cons_r a y r : union_names a (y :: r) ≠ [].
Proof.
  intros H. assert (y ∈ union_names a (y :: r)) as Hy
    by (apply elem_of_union_names; right; left).
  rewrite H in Hy. by apply elem_of_nil in Hy.
Qed.

Lemma tabulate_names (f : string → gmap Z V) names :
  ((λ c, (c, f c)) <$> names).*1 = names.
Proof. induction names as [|n names IH]; [done|]. cbn. by rewrite IH. Qed.

Lemma aligned_names_same (this other : DataFrame V) :
  index_name this = index_name other →
  aligned_names this other = (index_name this, index_name this).
Proof.
  intros Hn. unfold aligned_names, union_name. rewrite <- Hn.
  repeat case_decide; repeat case_bool_decide; try done;
    by destruct (index other), (index this).
Qed.

(** The shape of [this.combine_first(other)] when [other] is not empty and
    the two indexes have the same name. *)
Lemma combine_first_shape (this other : DataFrame V) kind :
  union_kind (index_kind this) (index_kind other) = Ok kind →
  empty other = false →
  index_name this = index_name other →
  ∃ r, combine_first this other = Ok r ∧
       index_name r = index_name this ∧
       index_kind r = kind ∧
       index r = union_labels (index this) (index other) ∧
       column_names r = union_names (column_names this) (column_names other).
Proof.
  intros Hk He Hn. unfold combine_first. rewrite Hk, (aligned_names_same _ _ Hn).
  cbn [mbind result_bind res_bind fst snd].
  unfold empty in He. destruct (index other) as [|y ys] eqn:Ei; [done|].
  destruct (columns other) as [|[n m] cs] eqn:Ec; [done|].
  pose proof (union_labels_cons_r (index this) y ys) as Hidx.
  assert (union_names (column_names this) (column_names other) ≠ []) as Hnames.
  { unfold column_names at 2. rewrite Ec. apply union_names_cons_r. }
  destruct (union_labels (index this) (y :: ys)) as [|i rest] eqn:Eu; [done|].
  destruct (union_names (column_names this) (column_names other)) as [|n' ns] eqn:En; [done|].
  unfold empty at 1. cbn [index columns fmap list_fmap andb].
  destruct (empty this && _); eexists; (split; [done|]);
    unfold column_names; cbn [index_name index_kind index columns];
    (repeat split; cbn [fmap list_fmap fst]; f_equal; apply tabulate_names).
Qed.

Lemma merge_read_stored path w st rows cols :
  files w !! path = Some (Csv "time" st rows cols) →
  rows ≠ [] → cols ≠ [] →
  (run (merge_read path) w).1
  = tz_localize_utc (mkDataFrame (Some "time") (parsed_kind parse_keeps_offset st rows) rows
                       (mangle_dupe_cols ["time"] cols)).
Proof.
  intros Hf Hr Hc. unfold merge_read. rewrite run_bind. unfold read_csv. cbn [run]. rewrite Hf.
  unfold parse_csv. rewrite decide_True by done.
  destruct rows as [|x rest]; [done|]. destruct cols as [|[n m] cs]; [done|].
  cbn [mangle_dupe_cols]. unfold empty. cbn [index columns negb]. by rewrite run_lift.
Qed.

(** X8.  Merge on write, when the file holds every column of the new table:
    the file at [path] has the header [time], rows, distinct column names
    and stamps that parse to a naive index.  The write succeeds; the file
    then holds the rows of both, the columns it held, and in every cell the
    new table's value where it has one and the value held before
    otherwise. *)
Theorem merge_write_upserts path data off st rows cols w :
  self_merge self = true →
  files w !! path = Some (Csv "time" st rows cols) →
  parsed_kind parse_keeps_offset st rows = DatetimeNaive →
  cols ≠ [] →
  NoDup ("time" :: cols.*1) →
  cells_in rows cols →
  index_kind data = DatetimeAware off →
  cells_in (index data) (columns data) →
  Forall (λ name, name ∈ cols.*1) (column_names data) →
  let out := run (_write_file path data) w in
  out.1 = Ok () ∧
  (∀ t, t ∈ stored_rows (files out.2 !! path) ↔ t ∈ index data ∨ t ∈ rows) ∧
  (∀ c, c ∈ stored_header (files out.2 !! path) ↔ c = "time" ∨ c ∈ cols.*1) ∧
  (∀ c t, stored_cell (files out.2 !! path) c t
          = match cell data c t with
            | Some v => Some v
            | None => stored_cell (files w !! path) c t
            end).
Proof.
  intros Hm Hf Hkind Hcols Hnd Hcin Hk Hdin Hsub out.
  assert (rows ≠ []) as Hrows by (intros ->; done).
  pose proof (_write_file_run path data w) as H. cbn zeta in H. fold out in H.
  set (new := mkDataFrame (Some "time") (DatetimeAware 0) (index data) (columns data)).
  set (old := mkDataFrame (Some "time") (DatetimeAware 0) rows cols).
  assert (empty old = false) as Hold by (unfold empty, old; cbn; by destruct rows, cols).
  destruct (combine_first_shape new old (DatetimeAware 0)) as (r & Hr & Hname & Hkr & Hir & Hcr);
    [done..|]. cbn [index_name new] in Hname.
  assert (merged_table w path data = Ok r) as Hmt.
  { unfold merged_table, tz_convert_utc. rewrite Hk, Hm. cbn [mbind result_bind res_bind].
    rewrite bool_decide_eq_true_2 by (rewrite Hf; eauto). cbn [andb].
    rewrite (merge_read_stored path w st rows cols Hf Hrows Hcols), Hkind.
    apply NoDup_cons in Hnd as [Ht Hnd].
    rewrite mangle_dupe_cols_id; [|intros n Hn ->%list_elem_of_singleton; done|done].
    unfold tz_localize_utc. cbn [index_kind index_name index columns mbind result_bind res_bind].
    fold old. rewrite Hold. cbn [negb]. rewrite bool_decide_eq_true_2 by done. exact Hr. }
  rewrite Hmt in H. destruct H as (H1 & _ & H3). split; [done|].
  rewrite H3, lookup_insert_eq, Hf. unfold render_csv, stored_rows, stored_header, stored_cell.
  split; [|split].
  - intros t. rewrite Hir. apply elem_of_union_labels.
  - intros c. rewrite Hname. cbn [default]. rewrite elem_of_cons.
    fold (column_names r). rewrite Hcr, elem_of_union_names.
    rewrite Forall_forall in Hsub. cbn [column_names columns old new] in *.
    unfold column_names in *. cbn [columns] in *.
    split; [intros [?|[?|?]]|intros [?|?]]; auto.
  - intros c t. apply (combine_first_cell new old r c t); done.
Qed.

(** X9.  With a parser that keeps the offset of the stamps, merge on write
    cannot add to a file the store wrote: for a file holding a table with
    rows and columns, written with the index named [time], the write
    raises TypeError (the index read back is already tz-aware when it is
    localized) and the files stay as they were. *)
Theorem merge_write_rejects_written_file path data off d o w :
  self_merge self = true →
  parse_keeps_offset = true →
  files w !! path = Some (render_csv d) →
  index_name d = Some "time" →
  index_kind d = DatetimeAware o →
  empty d = false →
  index_kind data = DatetimeAware off →
  let out := run (_write_file path data) w in
  out.1 = Raise TypeError ∧ files out.2 = files w.
Proof.
  intros Hm Hp Hf Hname Hkd He Hk out.
  pose proof (_write_file_run path data w) as H. cbn zeta in H. fold out in H.
  unfold render_csv in Hf. rewrite Hname, Hkd in Hf. cbn [default stamp_text] in Hf.
  unfold empty in He.
  destruct (index d) as [|x rest] eqn:Ei; [done|].
  destruct (columns d) as [|c cs] eqn:Ec; [done|].
  assert (merged_table w path data = Raise TypeError) as Hmt.
  { unfold merged_table, tz_convert_utc. rewrite Hk, Hm. cbn [mbind result_bind res_bind].
    rewrite bool_decide_eq_true_2 by (rewrite Hf; eauto). cbn [andb].
    rewrite (merge_read_stored path w _ _ _ Hf) by done.
    unfold tz_localize_utc, parsed_kind. cbn [index_kind]. by rewrite Hp. }
  rewrite Hmt in H. by destruct H as (H1 & _ & H3).
Qed.

(** ** What [_read_file] returns *)


(** X11.  A file whose time column holds Unix milliseconds, with rows,
    columns and distinct names: without [index_unix] the read raises
    AttributeError (an integer index has no [tzinfo]); with it the read
    returns the rows at their instants in UTC, with the columns of the file
    and the value of every cell. *)
Theorem read_epoch_millis path w rows cols :
  files w !! path = Some (Csv (self_index_column self) EpochMillis rows cols) →
  rows ≠ [] →
  cols ≠ [] →
  NoDup (self_index_column self :: cols.*1) →
  (self_index_unix self = false → (run (_read_file path) w).1 = Raise AttributeError) ∧
  (self_index_unix self = true →
   ∃ csv, (run (_read_file path) w).1 = Ok csv ∧
          index csv = ms_to_ns <$> rows ∧
          index_kind csv = DatetimeAware 0 ∧
          column_names csv = cols.*1 ∧
          ∀ c ms, cell csv c (ms_to_ns ms) = stored_cell (files w !! path) c ms).
Proof.
  intros Hf Hrows Hcols [Hh Hnd]%NoDup_cons.
  rewrite _read_file_outcome, read_outcome_eq, Hf. cbn [fst]. unfold parse_csv.
  rewrite decide_True by done.
  rewrite mangle_dupe_cols_id; [|intros n Hn ->%list_elem_of_singleton; done|done].
  cbn [mbind result_bind res_bind]. unfold normalize_index, empty, parsed_kind.
  cbn [index columns]. destruct rows as [|x rest]; [done|].
  destruct cols as [|col cs] eqn:Ec; [done|]. rewrite <- Ec in *. cbn [negb].
  unfold to_datetime_ms, index_tzinfo, tz_localize_utc. split; intros ->; cbn; [done|].
  eexists. split; [done|]. cbn. split; [done|]. split; [done|]. split.
  - unfold column_names. cbn [columns]. rewrite <- list_fmap_compose.
    by apply list_fmap_ext.
  - intros c ms. unfold cell, stored_cell. cbn [columns].
    rewrite (lookup_col_map_snd (kmap ms_to_ns)).
    destruct (lookup_col c cols) as [m|]; cbn; [|done].
    apply (lookup_kmap ms_to_ns).
Qed.

(** ** The rows of a query *)

(** The loop of [get] returns a table only with enough fuel. *)
(** The rows of a table [get] returned lie between [start] and the end
    the slice used. *)
Lemma get_rows_in_span fuel start end_ interval subdir w data t :
  0 < self_interval self →
  world_ok w →
  (run (get fuel (Some start) end_ interval subdir) w).1 = Ok data →
  t ∈ index data →
  instant start ≤ t ≤ instant (final_end (effective_end start end_) interval).
Proof.
  intros Hpos Hw H.
  apply get_Ok in H as (Hn & H & _); [|done].
  apply res_bind_Ok in H as (acc & Hacc & (acc' & Hres & Hfin)%res_bind_Ok).
  assert (StronglySorted Z.lt (index acc')) as Hs.
  { eapply resampled_sorted; [|done].
    eapply (accumulated_ok w _ subdir new_frame); [done|apply new_frame_ok|done]. }
  apply final_slice_Ok in Hfin as ->; [|done].
  set (E := effective_end start end_) in *.
  pose proof (final_end_ge_effective E interval) as HE.
  destruct (decide (instant start ≤ instant (final_end E interval))) as [Hle|Hgt].
  - rewrite sorted_slice_range by done. tauto.
  - intros [Ht _]%sorted_slice_index; [|done]. exfalso.
    rewrite n_candidates_after in Hacc by lia. injection Hacc as <-.
    revert Hres Ht. unfold resampled. destruct interval as [i|]; [|by intros [= <-] ?%elem_of_nil].
    case_bool_decide; [|by intros [= <-] ?%elem_of_nil].
    by intros [? _]%resample_sum_index.
Qed.

(** X12.  Whatever [get] returns lies in the span it worked with: no row is
    earlier than [start], and none is later than the end it used, which is
    the caller's end (or [start]) plus the bucket width less one second,
    plus the interval when the table was resampled. *)
Theorem get_rows_within_span fuel start end_ interval subdir w data :
  0 < self_interval self →
  world_ok w →
  (run (get fuel (Some start) end_ interval subdir) w).1 = Ok data →
  ∀ t, t ∈ index data →
       instant start ≤ t ≤ instant (final_end (effective_end start end_) interval).
Proof. intros Hpos Hw H t. by apply (get_rows_in_span fuel _ _ _ subdir w). Qed.

(** X13.  [DatabaseWeather.get] without start and without end asks the store
    for the 364 days from the present instant on, not for last year: no
    row it returns is earlier than the present instant, and none is later
    than 364 days, a bucket width less one second and, when resampled, the
    interval after it. *)
Theorem weather_get_defaults strptime utcnow fuel format interval subdir w data :
  0 < self_interval self →
  world_ok w →
  (run (DatabaseWeather_get strptime utcnow fuel None None format interval subdir) w).1
  = Ok data →
  ∀ t, t ∈ index data →
       utcnow ≤ t ≤ instant (final_end (mkDatetime (utcnow + 364 * day
                                                    + (timedelta_hours (self_interval self)
                                                       - timedelta_seconds 1)) 0) interval).
Proof.
  intros Hpos Hw. unfold DatabaseWeather_get. rewrite !run_bind, !run_lift.
  cbn [mbind result_bind res_bind].
  destruct (add_timedelta _ _) as [e| |] eqn:Ee; [|done..].
  apply add_timedelta_inv in Ee as [-> _].
  intros H t Ht.
  apply (get_rows_in_span _ _ _ _ _ _ _ _ Hpos Hw H Ht).
Qed.

(** ** A store the store itself wrote *)

Lemma merge_read_shape path w csv :
  (run (merge_read path) w).1 = Ok csv →
  index_name csv = Some "time" ∧ (empty csv = false → index_kind csv = DatetimeAware 0).
Proof.
  unfold merge_read. rewrite run_bind. unfold read_csv. cbn [run].
  destruct (files w !! path) as [f|]; [|done].
  destruct f as [|h st rows cols]; [done|]. unfold parse_csv. case_decide; [|done].
  set (c := mkDataFrame _ _ _ _). destruct (empty c) eqn:Ec; cbn [negb].
  - rewrite run_ret. intros [= <-]. split; [done|]. intros; congruence.
  - rewrite run_lift. cbn [fst]. unfold tz_localize_utc.
    destruct (index_kind c); try done. by intros [= <-].
Qed.

Lemma merged_table_shape w path data d :
  merged_table w path data = Ok d →
  index_name d = Some "time" ∧ index_kind d = DatetimeAware 0 ∧
  (columns data ≠ [] → columns d ≠ []).
Proof.
  unfold merged_table, tz_convert_utc. destruct (index_kind data); try done.
  cbn [mbind result_bind res_bind]. set (new := set_index_name "time" _).
  destruct (self_merge self && _); [|by intros [= <-]].
  destruct (run (merge_read path) w).1 as [csv| |] eqn:Hcsv; [|done..].
  apply merge_read_shape in Hcsv as [Hname Hkind]. cbn [mbind result_bind res_bind].
  destruct (empty csv) eqn:Ec; cbn [negb]; [by intros [= <-]|].
  specialize (Hkind eq_refl). case_bool_decide.
  - destruct (combine_first_shape new csv (DatetimeAware 0)) as (r & -> & Hn & Hk & _ & Hc);
      [by rewrite Hkind|done|by rewrite Hname|].
    intros [= <-]. rewrite Hn. split; [done|]. split; [done|]. intros Hne.
    destruct (columns data) as [|[n m] cs] eqn:Ed; [done|].
    assert (n ∈ column_names r) as Hin.
    { rewrite Hc. apply elem_of_union_names. left. unfold column_names, new.
      cbn [columns set_index_name]. rewrite ?Ed. left. }
    unfold column_names in Hin. destruct (columns r); [by apply elem_of_nil in Hin|done].
  - unfold concat_columns. rewrite Hkind. cbn [index_kind new set_index_name union_kind].
    cbn [mbind result_bind res_bind]. intros [= <-]. cbn [index_name index_kind columns].
    rewrite Hname. split; [done|]. split; [done|]. intros Hne Happ.
    by apply app_eq_nil in Happ as [_ ?].
Qed.

(** X14.  Whatever [persist] stores, with or without merge, is a file in the
    store's own form: the time column headed [time], the stamps in UTC;
    and when the table has a column, so has the file. *)
Theorem persist_writes_own_form data time file subdir w :
  (run (persist (Some data) time file subdir) w).1 = Ok () →
  ∃ f rows cols,
    resolved_file data time file = Ok f ∧
    files (run (persist (Some data) time file subdir) w).2 !! target_path subdir f
    = Some (Csv "time" (DateOffset 0) rows cols) ∧
    (columns data ≠ [] → cols ≠ []).
Proof.
  pose proof (persist_run data time file subdir w) as H. cbn zeta in H.
  destruct H as (-> & Hf & _).
  destruct (resolved_file data time file) as [f| |]; [|done..].
  cbn [mbind result_bind res_bind] in *.
  destruct (ensured_dir _ _).1 as [[]| |]; [|done..].
  cbn [mbind result_bind res_bind] in *.
  destruct (merged_table w (target_path subdir f) data) as [d| |] eqn:Hd; [|done..].
  cbn [mbind result_bind res_bind] in *. intros _.
  apply merged_table_shape in Hd as (Hn & Hk & Hc).
  exists f, (index d), (columns d). split; [done|]. split; [|done].
  rewrite Hf, lookup_insert_eq. unfold render_csv. by rewrite Hn, Hk.
Qed.





Lemma lookup_col_app c (cols more : list (string * gmap Z V)) :
  c ∈ cols.*1 → lookup_col c (cols ++ more) = lookup_col c cols.
Proof.
  induction cols as [|[n m] cols IH]; [by intros ?%elem_of_nil|].
  cbn [fmap list_fmap fst app lookup_col]. case_decide; [done|].
  intros [?|?]%elem_of_cons; [congruence|auto].
Qed.

(** X16.  Merge on write, when the new table brings a column the file does
    not hold (the file as in the upsert case): the write succeeds; the file
    then holds the rows of both, its own columns followed by all columns of
    the new table, and every value of the columns it held is as before,
    also in a column whose name the new table shares. *)
Theorem merge_write_appends_columns path data off st rows cols w :
  self_merge self = true →
  files w !! path = Some (Csv "time" st rows cols) →
  parsed_kind parse_keeps_offset st rows = DatetimeNaive →
  cols ≠ [] →
  NoDup ("time" :: cols.*1) →
  index_kind data = DatetimeAware off →
  ¬ Forall (λ name, name ∈ cols.*1) (column_names data) →
  let out := run (_write_file path data) w in
  out.1 = Ok () ∧
  (∀ t, t ∈ stored_rows (files out.2 !! path) ↔ t ∈ rows ∨ t ∈ index data) ∧
  stored_header (files out.2 !! path) = "time" :: cols.*1 ++ column_names data ∧
  (∀ c t, c ∈ cols.*1 →
          stored_cell (files out.2 !! path) c t = stored_cell (files w !! path) c t).
Proof.
  intros Hm Hf Hkind Hcols Hnd Hk Hnew out.
  assert (rows ≠ []) as Hrows by (intros ->; done).
  pose proof (_write_file_run path data w) as H. cbn zeta in H. fold out in H.
  set (d := mkDataFrame (Some "time") (DatetimeAware 0) (union_labels rows (index data))
              (cols ++ columns data)).
  assert (merged_table w path data = Ok d) as Hmt.
  { unfold merged_table, tz_convert_utc. rewrite Hk, Hm. cbn [mbind result_bind res_bind].
    rewrite bool_decide_eq_true_2 by (rewrite Hf; eauto). cbn [andb].
    rewrite (merge_read_stored path w st rows cols Hf Hrows Hcols), Hkind.
    apply NoDup_cons in Hnd as [Ht Hnd].
    rewrite mangle_dupe_cols_id; [|intros n Hn ->%list_elem_of_singleton; done|done].
    unfold tz_localize_utc. cbn [index_kind index_name index columns mbind result_bind res_bind].
    unfold empty. cbn [index columns]. destruct rows as [|x rest]; [done|].
    destruct cols as [|col cs] eqn:Ec; [done|]. unfold d. rewrite <- Ec in *. cbn [negb].
    rewrite bool_decide_eq_false_2 by done. reflexivity. }
  rewrite Hmt in H. destruct H as (H1 & _ & H3). split; [done|].
  rewrite H3, lookup_insert_eq, Hf. unfold render_csv, stored_rows, stored_header, stored_cell, d.
  cbn [index_name index_kind index columns default stamp_text]. split; [|split].
  - intros t. apply elem_of_union_labels.
  - unfold column_names. by rewrite fmap_app.
  - intros c t Hc. by rewrite lookup_col_app.
Qed.

(** ** Resampling *)



(** ** Missing chunks *)




(** ** The accumulator of [get] *)

Lemma StronglySorted_lt_NoDup (l : list Z) : StronglySorted Z.lt l → NoDup l.
Proof.
  induction 1 as [|x l Hl IH Hx]; constructor; [|done].
  intros Hin. rewrite Forall_forall in Hx. specialize (Hx x Hin). lia.
Qed.

Lemma combine_first_rows (this other r : DataFrame V) t :
  frame_ok this → frame_ok other → combine_first this other = Ok r →
  t ∈ index r ↔ t ∈ index this ∨ t ∈ index other.
Proof.
  intros [Hst _] [Hso _] Hr. split; [by apply combine_first_index|].
  revert Hr. unfold combine_first.
  destruct (union_kind _ _) as [kind| |]; cbn [mbind result_bind res_bind]; [|done..].
  assert (∀ t, t ∈ union_labels (index this) (index other)
               ↔ t ∈ index this ∨ t ∈ index other) as Hu
    by (intros ?; apply elem_of_union_labels).
  destruct (_ && _) eqn:E1.
  - intros [= <-] Ht. apply andb_true_iff in E1 as [_ Hlen%bool_decide_eq_true].
    assert (index this ⊆+ union_labels (index this) (index other)) as Hsub.
    { apply NoDup_submseteq; [by apply StronglySorted_lt_NoDup|].
      intros x Hx. apply Hu. by left. }
    apply submseteq_length_Permutation in Hsub; [|lia].
    rewrite Hsub. by apply Hu.
  - destruct (empty this && _); intros [= <-]; cbn [index]; by apply Hu.
Qed.

(** What the accumulator holds after the loop: in every cell the first
    value among the table it started with and the chunks in the order
    they were loaded, and the rows of them all. *)
Lemma accumulated_cells w times subdir data acc :
  world_ok w → frame_ok data → accumulated w times subdir data = Ok acc →
  ∃ chunks, loaded w times subdir = Ok chunks ∧
    (∀ c t, cell acc c t
            = first_value (cell data c t :: ((λ csv, cell csv c t) <$> chunks))) ∧
    (∀ t, t ∈ index acc ↔ t ∈ index data ∨ ∃ csv, csv ∈ chunks ∧ t ∈ index csv).
Proof.
  intros Hw. revert data. induction times as [|time rest IH]; intros data Hok.
  { intros [= <-]. exists []. split; [done|]. split.
    - intros c t. cbn. by destruct (cell data c t).
    - intros t. split; [by left|]. intros [?|(csv & ?%elem_of_nil & _)]; done. }
  cbn [accumulated loaded]. destruct (presentb w _); [|by apply IH].
  destruct (read_outcome w _) as [csv| |] eqn:Hcsv; cbn [mbind result_bind res_bind]; [|done..].
  destruct (combine_first data csv) as [d| |] eqn:Hd; cbn [mbind result_bind res_bind];
    [|done..].
  intros Hacc. pose proof (read_outcome_ok _ _ _ Hw Hcsv) as Hcok.
  pose proof (combine_first_ok _ _ _ Hok Hcok Hd) as Hdok.
  destruct (IH d Hdok Hacc) as (chunks & -> & Hcell & Hrows).
  exists (csv :: chunks). split; [done|]. split.
  - intros c t. rewrite Hcell. cbn [fmap list_fmap first_value].
    rewrite (combine_first_cell data csv d c t) by (done || apply Hok || apply Hcok).
    by destruct (cell data c t).
  - intros t. rewrite Hrows, (combine_first_rows data csv d t) by done.
    setoid_rewrite elem_of_cons. split.
    + intros [[?|?]|(x & ? & ?)]; eauto.
    + intros [?|(x & [->|?] & ?)]; eauto.
Qed.

(** The world after [get] is the world after its loop. *)
Lemma get_world_loop fuel start end_ interval subdir w E :
  add_timedelta (default start end_)
    (timedelta_hours (self_interval self) - timedelta_seconds 1) = Ok E →
  (run (get fuel (Some start) end_ interval subdir) w).2
  = (run (get_loop fuel start E subdir new_frame) w).2.
Proof.
  intros HE. unfold get.
  assert (match end_ with None => Some start | Some e => Some e end
          = Some (default start end_)) as -> by by destruct end_.
  cbn zeta. rewrite run_bind, run_lift, HE, run_bind, run_lift, run_bind.
  destruct (run (get_loop _ _ _ _ _) w) as [[d| |] w']; [|done..]. cbn [snd].
  assert (∀ (d : DataFrame V) (e : datetime),
    (run (if dt_gt start e
          then data ← lift (truncate_before (instant start) d); mret (head 1 data)
          else lift (loc_slice (instant start) (instant e) d)) w').2 = w') as Hfin.
  { intros d' e. destruct (dt_gt start e); [|done].
    rewrite run_bind, run_lift. by destruct (truncate_before _ _). }
  rewrite run_bind.
  destruct interval as [i|]; [destruct (bool_decide (seconds 900 < i))|].
  - rewrite run_bind, run_lift. destruct (resample_sum _ _ _ _ _); [|done..].
    rewrite run_bind, run_lift. destruct (add_timedelta E i); [|done..].
    rewrite run_ret. apply Hfin.
  - rewrite run_ret. apply Hfin.
  - rewrite run_ret. apply Hfin.
Qed.

(** C7.  The loop visits [start], [start + width], ... while the candidate
    is not later than the end it was given, testing the chunk of each in
    that order, and returns with that much fuel ([get] runs it from
    [start] to its effective end).  Each union keeps the accumulator's
    value wherever it has one and takes the chunk's value elsewhere.  So
    at the end every cell holds the first value there is among the table
    the loop started with and the chunks in the order they were loaded: a
    value the accumulator holds is never replaced, and a cell it lacks is
    filled by the first chunk that has it; the rows are those of them
    all. *)
Theorem accumulator_wins fuel start end_ subdir data w :
  0 < self_interval self →
  (n_candidates start end_ ≤ fuel)%nat →
  min_instant ≤ instant start →
  instant end_ + timedelta_hours (self_interval self) ≤ max_instant →
  world_ok w → frame_ok data →
  let times := candidates (n_candidates start end_) start in
  let out := run (get_loop fuel start end_ subdir data) w in
  (∀ acc csv r c t,
      frame_ok acc → frame_ok csv → combine_first acc csv = Ok r →
      cell r c t = match cell acc c t with Some v => Some v | None => cell csv c t end) ∧
  (∀ t, t ∈ times ↔
        ∃ k : nat, t = dt_add start (Z.of_nat k * timedelta_hours (self_interval self)) ∧
                   instant t ≤ instant end_) ∧
  out.1 ≠ Diverge ∧
  (∀ acc, out.1 = Ok acc →
      probed (trace out.2) = probed (trace w) ++ ((λ t, chunk_path t subdir) <$> times) ∧
      ∃ chunks,
        loaded w times subdir = Ok chunks ∧
        (∀ c t, cell acc c t
                = first_value (cell data c t :: ((λ csv, cell csv c t) <$> chunks))) ∧
        (∀ t, t ∈ index acc ↔ t ∈ index data ∨ ∃ csv, csv ∈ chunks ∧ t ∈ index csv)) ∧
  (∀ end0 interval,
      end_ = effective_end start end0 →
      min_instant ≤ instant end_ →
      (run (get fuel (Some start) end0 interval subdir) w).2
      = (run (get_loop fuel start end_ subdir new_frame) w).2).
Proof.
  intros Hpos Hn Hmin Hmax Hw Hok times out.
  pose proof (timedelta_hours_pos Hpos) as Hstep.
  split; [intros acc csv r c t [_ ?] [_ ?]; by apply combine_first_cell|].
  assert (out = run (load_all times subdir data) w) as Hout
    by by apply get_loop_load_all.
  split.
  { intros t. unfold times. rewrite elem_of_candidates. split.
    - intros (k & Hk & ->). exists k. split; [done|]. simpl.
      by apply candidate_in_range.
    - intros (k & -> & Hk). exists k. split; [|done].
      apply candidate_in_range; [done|]. exact Hk. }
  pose proof (load_all_run times subdir data w) as (H1 & _).
  pose proof (load_all_trace times subdir data w) as (evs & Ht & _ & Hp).
  rewrite <- Hout in H1, Ht, Hp. cbn zeta in *. rewrite H1.
  split; [apply accumulated_returns|]. split.
  - intros acc Hacc. rewrite Ht. unfold probed at 1. rewrite omap_app.
    fold (probed (trace w)) (probed evs). rewrite (Hp acc) by by rewrite H1.
    split; [done|]. by apply (accumulated_cells w times subdir data).
  - intros end0 interval Heq HE. apply get_world_loop.
    rewrite Heq in HE, Hmax |- *. unfold effective_end in *. cbn [instant dt_add] in *.
    apply add_timedelta_Ok. lia.
Qed.

(** ** Writes, reads and queries of the store *)

(** X1.  Whatever the outcome, [persist] changes no file but the one it
    was asked to write, and that one only when it returns without error;
    it removes no directory, and the directories it adds are the target
    directory and those on the way to it, and only when nothing existed at
    the path of the target directory. *)
Theorem persist_touches_only_target (table : option (DataFrame V)) time file subdir w :
  let out := run (persist table time file subdir) w in
  let path := path_join (self_dir self) [subdir] in
  (∀ p, files out.2 !! p ≠ files w !! p →
        out.1 = Ok () ∧
        ∃ d f, table = Some d ∧ resolved_file d time file = Ok f ∧ p = target_path subdir f) ∧
  (∀ p, p ∈ dirs w → p ∈ dirs out.2) ∧
  (∀ p, p ∈ dirs out.2 → p ∉ dirs w → p ∈ ancestors path ∧ ¬ present w path).
Proof.
  destruct table as [d|]; [|cbn; split; [done|split; [done|done]]].
  pose proof (persist_run d time file subdir w) as H. cbn zeta in H |- *.
  set (out := run (persist (Some d) time file subdir) w) in *. clearbody out.
  destruct H as (H1 & H2 & H3). rewrite H1, H2. clear H1 H2.
  assert (dirs out.2 = dirs w ∨
          (¬ present w (path_join (self_dir self) [subdir]) ∧
           dirs out.2 = list_to_set (ancestors (path_join (self_dir self) [subdir]))
                        ∪ dirs w)) as Hd.
  { rewrite H3. destruct (resolved_file d time file); [|by left..].
    unfold ensured_dir. destruct (presentb w _) eqn:Ep; [by left|].
    unfold os_makedirs. cbn [run snd].
    destruct (components _); [by left|].
    destruct (bool_decide (Exists _ _)); [by left|].
    destruct (_ || _); [by left|]. right. split; [|done].
    rewrite <- presentb_present. by rewrite Ep. }
  clear H3. split; [|split].
  - intros p Hp. destruct (resolved_file d time file) as [f| |] eqn:Ef;
      cbn [mbind result_bind res_bind] in *; [|by destruct Hp..].
    destruct (ensured_dir _ _).1 as [[]| |];
      cbn [mbind result_bind res_bind] in *; [|by destruct Hp..].
    destruct (merged_table w (target_path subdir f) d) as [d'| |];
      cbn [mbind result_bind res_bind] in *; [|by destruct Hp..].
    split; [done|]. exists d, f. split; [done|]. split; [done|].
    destruct (decide (p = target_path subdir f)) as [|Hne]; [done|].
    by rewrite lookup_insert_ne in Hp.
  - intros p Hp. destruct Hd as [->|[_ ->]]; [done|]. apply elem_of_union; by right.
  - intros p Hp Hn. destruct Hd as [Hd|[Hnp Hd]]; rewrite Hd in Hp; [done|].
    apply elem_of_union in Hp as [Hp%elem_of_list_to_set|?]; done.
Qed.

(** X4.  A bucket width of zero is not refused: when [start] is not later
    than the end less one second, these times can be held and the chunk
    named after [start] does not exist, the loop of [get] does not end,
    whatever the fuel: [time] never moves. *)
Theorem get_hangs_on_zero_width fuel start end_ interval subdir w :
  self_interval self = 0 →
  instant start ≤ instant (effective_end start end_) →
  min_instant ≤ instant (effective_end start end_) ≤ max_instant →
  min_instant ≤ instant start ≤ max_instant →
  presentb w (chunk_path start subdir) = false →
  (run (get fuel (Some start) end_ interval subdir) w).1 = Diverge.
Proof.
  intros Hw Hle HE Hs Hnone.
  assert (∀ fuel data w',
             files w' = files w → dirs w' = dirs w →
             (run (get_loop fuel start (effective_end start end_) subdir data) w').1 = Diverge)
    as Hloop.
  { clear fuel. induction fuel as [|fuel IH]; intros data w' Hf Hd; cbn [get_loop];
      unfold dt_le; rewrite bool_decide_eq_true_2 by done; [done|].
    rewrite run_bind, load_chunk_run. cbn zeta.
    rewrite (presentb_files w w') by done. rewrite Hnone.
    rewrite run_bind, run_lift, Hw, add_timedelta_Ok by (unfold timedelta_hours; lia).
    assert (dt_add start (timedelta_hours 0) = start) as ->.
    { destruct start. unfold dt_add, timedelta_hours. cbn. f_equal. lia. }
    by apply IH. }
  unfold get.
  assert (match end_ with None => Some start | Some e => Some e end
          = Some (default start end_)) as -> by by destruct end_.
  cbn zeta. rewrite run_bind, run_lift.
  rewrite add_timedelta_Ok by (unfold effective_end in HE; cbn in HE; lia).
  fold (effective_end start end_).
  rewrite run_bind, run_lift, run_bind.
  specialize (Hloop fuel new_frame w eq_refl eq_refl).
  destruct (run (get_loop _ _ _ _ _) w) as [r w']. cbn [fst] in Hloop. by subst r.
Qed.

(** X5.  Over a well-formed store and within the range of times, a query
    without end and without resampling looks at one chunk, the one named
    after [start].  When it does not exist the result is the empty table;
    when it exists and reads as a table (not one of bare integer labels),
    the result holds exactly the rows of that table from [start] to the
    last second of the bucket ([start + width - 1 s], bounds included),
    with their values; when its read fails, so does the query. *)
Theorem get_single_bucket fuel start interval subdir w :
  0 < self_interval self →
  (1 ≤ fuel)%nat →
  (∀ i, interval = Some i → i ≤ seconds 900) →
  world_ok w →
  span_ok start None interval →
  let p := chunk_path start subdir in
  let out := run (get fuel (Some start) None interval subdir) w in
  (presentb w p = false → out = (Ok new_frame, log (EvExists p) w)) ∧
  (presentb w p = true →
   out.2 = log (EvRead p) (log (EvExists p) w) ∧
   match read_outcome w p with
   | Ok csv =>
       index_kind csv ≠ Int64Index →
       ∃ data, out.1 = Ok data ∧
               (∀ t, t ∈ index data ↔
                     t ∈ index csv ∧
                     instant start ≤ t ≤ instant start + timedelta_hours (self_interval self)
                                           - timedelta_seconds 1) ∧
               (∀ c t, t ∈ index data → cell data c t = cell csv c t)
   | Raise e => out.1 = Raise e
   | Diverge => False
   end).
Proof.
  intros Hpos Hfuel Hi Hw Hspan p out. unfold out.
  rewrite get_run by (rewrite ?n_candidates_single by done; done).
  rewrite n_candidates_single by done. cbn [candidates load_all accumulated].
  rewrite run_bind, load_chunk_run. cbn zeta. fold p.
  assert (instant start ≤ instant (effective_end start None)) as Hle.
  { unfold effective_end. cbn. unfold timedelta_hours, timedelta_seconds, second. lia. }
  assert (∀ d, StronglySorted Z.lt (index d) → index_kind d ≠ Int64Index →
               final_slice start (final_end (effective_end start None) interval) d
               = Ok (with_rows d (keep_upto (instant (effective_end start None))
                                    (drop_before (instant start) (index d))))) as Hslice.
  { intros d Hd Hk. destruct (resampled_none start interval d Hi) as [_ ->].
    rewrite final_slice_eq, decide_False by done.
    unfold sorted_slice, dt_gt. by rewrite bool_decide_eq_false_2 by lia. }
  split; intros Hp; rewrite Hp.
  - cbn [mbind result_bind res_bind]. rewrite run_ret. cbn [snd].
    destruct (resampled_none start interval new_frame Hi) as [-> _].
    cbn [mbind result_bind res_bind]. rewrite Hslice; [done|constructor|done].
  - pose proof (read_outcome_returns w p) as Hret.
    destruct (read_outcome w p) as [csv| |] eqn:Hr; [|done..]; cbn [mbind result_bind res_bind].
    destruct (combine_first_new_frame csv) as (acc & Hacc & Hidx & _ & Hkind). rewrite Hacc.
    cbn [mbind result_bind res_bind]. rewrite run_ret. split; [done|]. intros Hint.
    destruct (resampled_none start interval acc Hi) as [-> _].
    cbn [mbind result_bind res_bind fst].
    pose proof (read_outcome_ok _ _ _ Hw Hr) as Hcsv.
    assert (frame_ok acc) as [Hs Hc].
    { eapply combine_first_ok; [apply new_frame_ok|exact Hcsv|exact Hacc]. }
    rewrite Hslice; [|done|by destruct Hkind as [-> | ->]].
    eexists. split; [done|]. split.
    * intros t. cbn [index with_rows]. rewrite elem_of_slice by done.
      rewrite Hidx. unfold effective_end. cbn [default dt_add instant]. split.
      -- intros [? ?]. split; [done|lia].
      -- intros [? ?]. split; [done|lia].
    * intros c t Ht. rewrite with_rows_cell.
      cbn [index with_rows] in Ht. rewrite decide_True by done.
      rewrite (combine_first_cell new_frame csv acc c t); [done| |apply Hcsv|done].
      constructor.
Qed.

(** X10.  Every table [_read_file] returns has its index named [time].
    When the table has rows and columns its index is tz-aware: in UTC when
    the stamps of the file carry no offset or the parser drops it (the
    index is then localized), and at the offset of the stamps when the
    parser keeps it: an index that is aware already is left at its offset,
    it is not converted to UTC. *)
Theorem read_file_index_is_aware path w h st rows cols csv :
  files w !! path = Some (Csv h st rows cols) →
  (run (_read_file path) w).1 = Ok csv →
  index_name csv = Some "time" ∧
  (empty csv = false →
   index_kind csv = DatetimeAware match st with
                                  | DateOffset off => if parse_keeps_offset then off else 0
                                  | _ => 0
                                  end).
Proof.
  intros Hf. rewrite _read_file_outcome. cbn [fst]. intros H.
  split; [by eapply read_outcome_index_name|].
  revert H. rewrite read_outcome_eq, Hf.
  intros (c1 & H1 & (c2 & H2 & [= <-])%res_bind_Ok)%res_bind_Ok He.
  change (empty (set_index_name "time" c2)) with (empty c2) in He.
  cbn [index_kind set_index_name].
  unfold normalize_index in H2. destruct (empty c1) eqn:E1; cbn [negb] in H2.
  { injection H2 as <-. congruence. }
  unfold parse_csv in H1. case_decide; [|done]. injection H1 as <-.
  revert H2. unfold to_datetime_ms, index_tzinfo, tz_localize_utc, parsed_kind.
  cbn [index_kind].
  destruct rows, st, parse_keeps_offset, (self_index_unix self); cbn;
    try done; by intros [= <-].
Qed.


End Database.








(** * Examples: the theorems at concrete inputs, and inputs at which the
    specification's wording fails *)

Import Samples.





(** [read_header_only_file] on a header-only file. *)
Lemma read_header_only_file_witness :
  files blank_files !! "data/1.csv" = Some (Csv "time" DateNaive [] [("x", (∅ : gmap Z Z))]) ∧
  "time" = self_index_column db ∧
  ∃ csv, run (_read_file true db "data/1.csv") blank_files
         = (Ok csv, log (EvRead "data/1.csv") blank_files) ∧
         index csv = [] ∧ index_name csv = Some "time".
Proof.
  assert (files blank_files !! "data/1.csv"
          = Some (Csv "time" DateNaive [] [("x", (∅ : gmap Z Z))])) as H1
    by (vm_compute; reflexivity).
  assert ("time" = self_index_column db) as H2 by reflexivity.
  destruct (read_header_only_file true db "data/1.csv" blank_files "time" DateNaive
              [("x", ∅)] H1 H2) as (csv & Hrun & Hidx & Hname & _).
  exact (conj H1 (conj H2 (ex_intro _ csv (conj Hrun (conj Hidx Hname))))).
Defined.

(** [merge_read_agrees] on a file of naive date text under the header
    [time]. *)
Lemma merge_read_agrees_witness :
  self_index_column db_merge = "time" ∧
  self_index_unix db_merge = false ∧
  run (merge_read true "data/0.csv") other_files
  = run (_read_file true db_merge "data/0.csv") other_files.
Proof.
  assert (self_index_column db_merge = "time") as H1 by reflexivity.
  assert (self_index_unix db_merge = false) as H2 by reflexivity.
  assert (∀ h st rows cols off,
            files other_files !! "data/0.csv" = Some (Csv h st rows cols) →
            parsed_kind true st rows ≠ DatetimeAware off) as H3.
  { intros h st rows cols off Hf.
    assert (files other_files !! "data/0.csv" = Some naive_time) as Hn
      by (vm_compute; reflexivity).
    rewrite Hn in Hf. injection Hf as <- <- <- <-. discriminate. }
  split; [assumption|]. split; [assumption|].
  exact (merge_read_agrees true db_merge "data/0.csv" other_files H1 H2 H3).
Defined.





(** [accumulator_wins]: day 0 and the chunk of day 1 that repeats hour 2.
    The value of x at hour 2 stays the 3 of day 0, the chunk of day 1
    fills x at hour 24 and y at hour 2. *)
Lemma accumulator_wins_witness :
  0 < self_interval db ∧
  world_ok overlapping_days ∧
  stored_cell (files overlapping_days !! "data/0.csv") "x" (hour 2) = Some 3 ∧
  stored_cell (files overlapping_days !! "data/1.csv") "x" (hour 2) = Some 99 ∧
  ∃ acc chunks,
    (run (get_loop strftime_day true db ts_min ts_max 2 (at_hour 0) (at_hour 24) ""
            new_frame) overlapping_days).1 = Ok acc ∧
    loaded strftime_day true db overlapping_days [at_hour 0; at_hour 24] "" = Ok chunks ∧
    (∀ c t, cell acc c t
            = first_value (cell (new_frame : DataFrame Z) c t
                           :: ((λ csv, cell csv c t) <$> chunks))) ∧
    cell acc "x" (hour 2) = Some 3 ∧
    cell acc "x" (hour 24) = Some 4 ∧
    cell acc "y" (hour 2) = Some 5 ∧
    index acc = [hour 0; hour 1; hour 2; hour 24].
Proof.
  assert (0 < self_interval db) as H1 by (vm_compute; reflexivity).
  assert ((n_candidates db (at_hour 0) (at_hour 24) ≤ 2)%nat) as H2
    by (vm_compute; lia).
  assert (ts_min ≤ instant (at_hour 0)) as H3 by (vm_compute; discriminate).
  assert (instant (at_hour 24) + timedelta_hours (self_interval db) ≤ ts_max) as H4
    by (vm_compute; discriminate).
  assert (world_ok overlapping_days) as H5
    by (apply (bool_decide_unpack _); vm_compute; exact I).
  assert (frame_ok (new_frame : DataFrame Z)) as H6
    by (apply (bool_decide_unpack _); vm_compute; exact I).
  destruct (accumulator_wins Z.add 0 strftime_day true db ts_min ts_max 2 (at_hour 0)
              (at_hour 24) "" new_frame overlapping_days H1 H2 H3 H4 H5 H6)
    as (_ & _ & _ & Hacc & _).
  split; [exact H1|]. split; [exact H5|].
  split; [vm_compute; reflexivity|]. split; [vm_compute; reflexivity|].
  destruct (run (get_loop strftime_day true db ts_min ts_max 2 (at_hour 0) (at_hour 24) ""
                   new_frame) overlapping_days).1 as [acc| |] eqn:Eacc;
    [|exfalso; vm_compute in Eacc; discriminate..].
  destruct (Hacc acc eq_refl) as (_ & chunks & Hl & Hcell & Hrows).
  exists acc, chunks. split; [reflexivity|].
  assert (n_candidates db (at_hour 0) (at_hour 24) = 2%nat) as Hn by (vm_compute; reflexivity).
  rewrite Hn in Hl. split; [exact Hl|]. split; [exact Hcell|].
  vm_compute in Eacc. injection Eacc as <-.
  repeat split; vm_compute; reflexivity.
Defined.

(** C1, at a failing input.  [table_a] (columns x, y) is written to a fresh
    store and [table_b] (columns x, z) is then merge-written to the same
    file; both hold a value for column x at hour 1, 2 in [table_a] and 20
    in [table_b].  With a parser that keeps the offset the store wrote, the
    second write raises TypeError and the file still holds 2.  With a parser
    that drops it the file ends up with the header time, x, y, x, z and its
    column x still holds 2.  When the new table has no new column
    ([table_c]) and the parser drops the offset, the new value 20 is
    stored. *)
Theorem merge_write_partial_overlap :
  let first k := run (persist strftime_day k db_merge (Some table_a) None None "") empty_world in
  let second k b := run (persist strftime_day k db_merge (Some b) None None "") (first k).2 in
  let stored k b := files (second k b).2 !! "data/0.csv" in
  cell table_a "x" (hour 1) = Some 2 ∧ cell table_b "x" (hour 1) = Some 20 ∧
  (first true).1 = Ok () ∧ (first false).1 = Ok () ∧
  (second true table_b).1 = Raise TypeError ∧
  stored_cell (stored true table_b) "x" (hour 1) = Some 2 ∧
  (second false table_b).1 = Ok () ∧
  stored_header (stored false table_b) = ["time"; "x"; "y"; "x"; "z"] ∧
  stored_cell (stored false table_b) "x" (hour 1) = Some 2 ∧
  (second false table_c).1 = Ok () ∧
  stored_header (stored false table_c) = ["time"; "x"; "y"] ∧
  stored_cell (stored false table_c) "x" (hour 1) = Some 20.
Proof. vm_compute. repeat split; reflexivity. Qed.

(** C2, at a failing input.  Asked for the single instant of hour 0, with
    that hour as its explicit end, [get] returns the rows of hours 1 and 2
    as well, which are later than the end the caller gave: line 143 has
    moved the end by the bucket width less one second although an end was
    supplied.  The rows of the accumulated table in [start, end] are the
    row of hour 0 alone. *)
Theorem get_returns_rows_after_end :
  accumulated strftime_day true db two_days [at_hour 0] "" new_frame = Ok day0_frame ∧
  rows_of (run (get Z.add 0 strftime_day true db ts_min ts_max 5 (Some (at_hour 0))
                  (Some (at_hour 0)) None "") two_days).1
  = Ok [hour 0; hour 1; hour 2] ∧
  instant (at_hour 0) < hour 1 ∧
  index (sorted_slice (at_hour 0) (at_hour 0) day0_frame) = [hour 0].
Proof. vm_compute. repeat split; reflexivity. Qed.

(** C3 as stated fails: for a table without rows [persist] raises
    IndexError when no time is given, and with a time it creates the
    directory and writes the file. *)
Lemma persist_table_without_rows :
  index no_rows = [] ∧
  (run (persist strftime_day true db (Some no_rows) None None "") empty_world).1
  = Raise IndexError ∧
  let out := run (persist strftime_day true db (Some no_rows) (Some (at_hour 0)) None "")
                 empty_world in
  out.1 = Ok () ∧
  stored_header (files out.2 !! "data/0.csv") = ["time"; "x"] ∧
  trace out.2 = [EvExists "data/"; EvMakedirs "data/"; EvWrite "data/0.csv"].
Proof. vm_compute. repeat split; reflexivity. Qed.

(** C4, at a failing input.  With start at hour 1 and end at hour 0 two
    rows come back, those of hours 1 and 2; and a start later than the
    extended end, with resampling asked for, raises TypeError. *)
Theorem get_backwards_range :
  instant (at_hour 0) < instant (at_hour 1) ∧
  rows_of (run (get Z.add 0 strftime_day true db ts_min ts_max 5 (Some (at_hour 1)) (Some (at_hour 0))
                  None "") two_days).1
  = Ok [hour 1; hour 2] ∧
  (run (get Z.add 0 strftime_day true db ts_min ts_max 5 (Some (at_hour 30)) (Some (at_hour 0))
          (Some (seconds 3600)) "") two_days).1
  = Raise TypeError.
Proof. vm_compute. repeat split; reflexivity. Qed.



(** C8 as stated fails for a zero-byte file: the read raises
    EmptyDataError, whichever parser is used. *)
Lemma read_zero_byte_file_raises :
  files blank_files !! "data/0.csv" = Some ZeroByte ∧
  (run (_read_file true db "data/0.csv") blank_files).1 = Raise EmptyDataError ∧
  (run (_read_file false db "data/0.csv") blank_files).1 = Raise EmptyDataError.
Proof. vm_compute. repeat split; reflexivity. Qed.

(** C9 as stated fails: a file whose time column is headed [ts] is read by
    [_read_file] under the index column [ts] and rejected by the read of a
    merge-write; a file of epoch milliseconds is converted by [_read_file]
    under [index_unix] and rejected by the read of a merge-write. *)
Lemma merge_read_ignores_configuration :
  self_index_column db_ts = "ts" ∧
  rows_of (run (_read_file true db_ts "data/1.csv") other_files).1 = Ok [hour 0; hour 1] ∧
  (run (merge_read true "data/1.csv") other_files).1 = Raise ValueError ∧
  self_index_unix db_unix = true ∧
  rows_of (run (_read_file true db_unix "data/2.csv") other_files).1 = Ok [hour 0; hour 1] ∧
  (run (merge_read true "data/2.csv") other_files).1 = Raise AttributeError.
Proof. vm_compute. repeat split; reflexivity. Qed.

(** ** Examples for the further properties *)

(** [persist_then_exists]: [table_a] persisted under its first label. *)
Lemma persist_then_exists_witness :
  (run (persist strftime_day true db (Some table_a) None None "") empty_world).1 = Ok () ∧
  (run (exists_ strftime_day db (at_hour 0) "")
       (run (persist strftime_day true db (Some table_a) None None "") empty_world).2).1
  = Ok true.
Proof.
  assert ((None : option datetime) = Some (at_hour 0) ∨
          ((None : option datetime) = None ∧ index0 table_a = Ok (LTime (at_hour 0)))) as H1
    by (right; split; reflexivity).
  assert ((run (persist strftime_day true db (Some table_a) None None "") empty_world).1
          = Ok ()) as H2 by (vm_compute; reflexivity).
  exact (conj H2 (persist_then_exists strftime_day true db table_a None ""
                    empty_world (at_hour 0) H1 H2)).
Defined.





(** [merge_write_upserts]: [table_c] merged into day 0 of the store of two
    days, by a parser that drops the offset: hour 1 takes the new value 20
    and hour 0 keeps its 1. *)
Lemma merge_write_upserts_witness :
  self_merge db_merge = true ∧
  parsed_kind false (DateOffset 0) [hour 0; hour 1; hour 2] = DatetimeNaive ∧
  (run (_write_file false db_merge "data/0.csv" table_c) two_days).1 = Ok () ∧
  (∀ c t, stored_cell (files (run (_write_file false db_merge "data/0.csv" table_c)
                                two_days).2 !! "data/0.csv") c t
          = match cell table_c c t with
            | Some v => Some v
            | None => stored_cell (files two_days !! "data/0.csv") c t
            end).
Proof.
  assert (self_merge db_merge = true) as H1 by reflexivity.
  assert (files two_days !! "data/0.csv"
          = Some (Csv "time" (DateOffset 0) [hour 0; hour 1; hour 2]
                    [("x", {[ hour 0 := 1; hour 1 := 2; hour 2 := 3 ]})])) as H2
    by (vm_compute; reflexivity).
  assert (parsed_kind false (DateOffset 0) [hour 0; hour 1; hour 2] = DatetimeNaive) as H3
    by reflexivity.
  assert ([("x", ({[ hour 0 := 1; hour 1 := 2; hour 2 := 3 ]} : gmap Z Z))] ≠ []) as H4
    by discriminate.
  assert (NoDup ("time" :: [("x", ({[ hour 0 := 1; hour 1 := 2; hour 2 := 3 ]} : gmap Z Z))].*1))
    as H5 by (apply (bool_decide_unpack _); vm_compute; exact I).
  assert (cells_in [hour 0; hour 1; hour 2]
            [("x", ({[ hour 0 := 1; hour 1 := 2; hour 2 := 3 ]} : gmap Z Z))]) as H6
    by (unfold cells_in; apply (bool_decide_unpack _); vm_compute; exact I).
  assert (index_kind table_c = DatetimeAware 0) as H7 by reflexivity.
  assert (cells_in (index table_c) (columns table_c)) as H8
    by (unfold cells_in; apply (bool_decide_unpack _); vm_compute; exact I).
  assert (Forall (λ name, name ∈ [("x", ({[ hour 0 := 1; hour 1 := 2; hour 2 := 3 ]} : gmap Z Z))].*1)
            (column_names table_c)) as H9
    by (apply (bool_decide_unpack _); vm_compute; exact I).
  destruct (merge_write_upserts Z.add 0 strftime_day false db_merge "data/0.csv" table_c 0
              (DateOffset 0) [hour 0; hour 1; hour 2]
              [("x", {[ hour 0 := 1; hour 1 := 2; hour 2 := 3 ]})] two_days
              H1 H2 H3 H4 H5 H6 H7 H8 H9) as (H10 & _ & _ & H11).
  exact (conj H1 (conj H3 (conj H10 H11))).
Defined.

(** [merge_write_rejects_written_file]: the same write by a parser that
    keeps the offset. *)
Lemma merge_write_rejects_written_file_witness :
  self_merge db_merge = true ∧
  files two_days !! "data/0.csv" = Some (render_csv (set_index_name "time" day0_frame)) ∧
  (run (_write_file true db_merge "data/0.csv" table_c) two_days).1 = Raise TypeError ∧
  files (run (_write_file true db_merge "data/0.csv" table_c) two_days).2 = files two_days.
Proof.
  assert (self_merge db_merge = true) as H1 by reflexivity.
  assert (true = true) as H2 by reflexivity.
  assert (files two_days !! "data/0.csv"
          = Some (render_csv (set_index_name "time" day0_frame))) as H3
    by (vm_compute; reflexivity).
  assert (index_name (set_index_name "time" day0_frame) = Some "time") as H4 by reflexivity.
  assert (index_kind (set_index_name "time" day0_frame) = DatetimeAware 0) as H5
    by reflexivity.
  assert (empty (set_index_name "time" day0_frame) = false) as H6 by reflexivity.
  assert (index_kind table_c = DatetimeAware 0) as H7 by reflexivity.
  exact (conj H1 (conj H3 (merge_write_rejects_written_file true db_merge "data/0.csv" table_c
                             0 (set_index_name "time" day0_frame) 0 two_days
                             H1 H2 H3 H4 H5 H6 H7))).
Defined.


(** [read_epoch_millis]: the file of epoch milliseconds, read with
    [index_unix]. *)
Lemma read_epoch_millis_witness :
  files other_files !! "data/2.csv"
  = Some (Csv (self_index_column db_unix) EpochMillis [0; 3600000]
            [("x", {[ 0 := 1; 3600000 := 2 ]})]) ∧
  (self_index_unix db_unix = true →
   ∃ csv, (run (_read_file true db_unix "data/2.csv") other_files).1 = Ok csv ∧
          index csv = ms_to_ns <$> [0; 3600000] ∧
          index_kind csv = DatetimeAware 0 ∧
          column_names csv = [("x", ({[ 0 := 1; 3600000 := 2 ]} : gmap Z Z))].*1 ∧
          ∀ c ms, cell csv c (ms_to_ns ms) = stored_cell (files other_files !! "data/2.csv") c ms).
Proof.
  assert (files other_files !! "data/2.csv"
          = Some (Csv (self_index_column db_unix) EpochMillis [0; 3600000]
                    [("x", {[ 0 := 1; 3600000 := 2 ]})])) as H1 by (vm_compute; reflexivity).
  assert ([0; 3600000] ≠ ([] : list Z)) as H2 by discriminate.
  assert ([("x", ({[ 0 := 1; 3600000 := 2 ]} : gmap Z Z))] ≠ []) as H3 by discriminate.
  assert (NoDup (self_index_column db_unix
                 :: [("x", ({[ 0 := 1; 3600000 := 2 ]} : gmap Z Z))].*1)) as H4
    by (apply (bool_decide_unpack _); vm_compute; exact I).
  destruct (read_epoch_millis true db_unix "data/2.csv" other_files [0; 3600000]
              [("x", {[ 0 := 1; 3600000 := 2 ]})] H1 H2 H3 H4) as (_ & H5).
  exact (conj H1 H5).
Defined.

(** [get_rows_within_span]: day 0 of the store of two days. *)
Lemma get_rows_within_span_witness :
  0 < self_interval db ∧
  world_ok two_days ∧
  (run (get Z.add 0 strftime_day true db ts_min ts_max 1 (Some (at_hour 0)) None None "") two_days).1
  = Ok day0_frame ∧
  ∀ t, t ∈ index day0_frame →
       instant (at_hour 0) ≤ t
       ≤ instant (final_end (effective_end db (at_hour 0) None) None).
Proof.
  assert (0 < self_interval db) as H1 by (vm_compute; reflexivity).
  assert (world_ok two_days) as H2 by (apply (bool_decide_unpack _); vm_compute; exact I).
  assert ((run (get Z.add 0 strftime_day true db ts_min ts_max 1 (Some (at_hour 0)) None None "")
             two_days).1 = Ok day0_frame) as H3 by (vm_compute; reflexivity).
  exact (conj H1 (conj H2 (conj H3
           (get_rows_within_span Z.add 0 strftime_day true db ts_min ts_max 1 (at_hour 0) None None ""
              two_days day0_frame H1 H2 H3)))).
Defined.

(** [weather_get_defaults]: the store of two days, asked at hour 0 of
    day 0. *)
Lemma weather_get_defaults_witness :
  0 < self_interval db ∧
  world_ok two_days ∧
  (run (DatabaseWeather_get Z.add 0 strftime_day true db ts_min ts_max strptime_none (hour 0) 400
          None None "%d.%m.%Y" None "") two_days).1 = Ok both_days_frame ∧
  ∀ t, t ∈ index both_days_frame →
       hour 0 ≤ t ≤ hour 0 + 364 * day + (timedelta_hours (self_interval db)
                                          - timedelta_seconds 1).
Proof.
  assert (0 < self_interval db) as H1 by (vm_compute; reflexivity).
  assert (world_ok two_days) as H2 by (apply (bool_decide_unpack _); vm_compute; exact I).
  assert ((run (DatabaseWeather_get Z.add 0 strftime_day true db ts_min ts_max strptime_none (hour 0) 400
                  None None "%d.%m.%Y" None "") two_days).1 = Ok both_days_frame) as H3
    by (vm_compute; reflexivity).
  exact (conj H1 (conj H2 (conj H3
           (weather_get_defaults Z.add 0 strftime_day true db ts_min ts_max strptime_none (hour 0) 400
              "%d.%m.%Y" None "" two_days both_days_frame H1 H2 H3)))).
Defined.

(** [persist_writes_own_form]: [table_a] persisted to a fresh store. *)
Lemma persist_writes_own_form_witness :
  (run (persist strftime_day true db (Some table_a) None None "") empty_world).1 = Ok () ∧
  ∃ f rows cols,
    resolved_file strftime_day db table_a None None = Ok f ∧
    files (run (persist strftime_day true db (Some table_a) None None "") empty_world).2
      !! target_path db "" f = Some (Csv "time" (DateOffset 0) rows cols) ∧
    (columns table_a ≠ [] → cols ≠ []).
Proof.
  assert ((run (persist strftime_day true db (Some table_a) None None "") empty_world).1
          = Ok ()) as H1 by (vm_compute; reflexivity).
  exact (conj H1 (persist_writes_own_form Z.add 0 strftime_day true db table_a None None ""
                    empty_world H1)).
Defined.


(** [merge_write_appends_columns]: [table_b], which brings the column z,
    merged into day 0 of the store of two days by a parser that drops the
    offset: the header becomes time, x, x, z and column x keeps its
    values. *)
Lemma merge_write_appends_columns_witness :
  self_merge db_merge = true ∧
  ¬ Forall (λ name, name ∈ [("x", ({[ hour 0 := 1; hour 1 := 2; hour 2 := 3 ]} : gmap Z Z))].*1)
      (column_names table_b) ∧
  (run (_write_file false db_merge "data/0.csv" table_b) two_days).1 = Ok () ∧
  stored_header (files (run (_write_file false db_merge "data/0.csv" table_b) two_days).2
                   !! "data/0.csv")
  = "time" :: [("x", ({[ hour 0 := 1; hour 1 := 2; hour 2 := 3 ]} : gmap Z Z))].*1
              ++ column_names table_b.
Proof.
  assert (self_merge db_merge = true) as H1 by reflexivity.
  assert (files two_days !! "data/0.csv"
          = Some (Csv "time" (DateOffset 0) [hour 0; hour 1; hour 2]
                    [("x", {[ hour 0 := 1; hour 1 := 2; hour 2 := 3 ]})])) as H2
    by (vm_compute; reflexivity).
  assert (parsed_kind false (DateOffset 0) [hour 0; hour 1; hour 2] = DatetimeNaive) as H3
    by reflexivity.
  assert ([("x", ({[ hour 0 := 1; hour 1 := 2; hour 2 := 3 ]} : gmap Z Z))] ≠ []) as H4
    by discriminate.
  assert (NoDup ("time" :: [("x", ({[ hour 0 := 1; hour 1 := 2; hour 2 := 3 ]} : gmap Z Z))].*1))
    as H5 by (apply (bool_decide_unpack _); vm_compute; exact I).
  assert (index_kind table_b = DatetimeAware 0) as H6 by reflexivity.
  assert (¬ Forall (λ name, name ∈ [("x", ({[ hour 0 := 1; hour 1 := 2; hour 2 := 3 ]}
                                             : gmap Z Z))].*1)
              (column_names table_b)) as H7
    by (apply (bool_decide_unpack _); vm_compute; exact I).
  destruct (merge_write_appends_columns Z.add 0 false db_merge "data/0.csv" table_b 0
              (DateOffset 0) [hour 0; hour 1; hour 2]
              [("x", {[ hour 0 := 1; hour 1 := 2; hour 2 := 3 ]})] two_days
              H1 H2 H3 H4 H5 H6 H7) as (H8 & _ & H9 & _).
  exact (conj H1 (conj H7 (conj H8 H9))).
Defined.

(** [get_hangs_on_zero_width]: a bucket width of zero over an empty
    store, asked for the first hour. *)
Lemma get_hangs_on_zero_width_witness :
  self_interval db_zero = 0 ∧
  instant (at_hour 0) ≤ instant (effective_end db_zero (at_hour 0) (Some (at_hour 1))) ∧
  (run (get Z.add 0 strftime_day true db_zero ts_min ts_max 1000 (Some (at_hour 0))
          (Some (at_hour 1)) None "") empty_world).1 = Diverge.
Proof.
  assert (self_interval db_zero = 0) as H1 by reflexivity.
  assert (instant (at_hour 0) ≤ instant (effective_end db_zero (at_hour 0) (Some (at_hour 1))))
    as H2 by (vm_compute; discriminate).
  assert (ts_min ≤ instant (effective_end db_zero (at_hour 0) (Some (at_hour 1))) ≤ ts_max)
    as H3 by (vm_compute; split; discriminate).
  assert (ts_min ≤ instant (at_hour 0) ≤ ts_max) as H4 by (vm_compute; split; discriminate).
  assert (presentb empty_world (chunk_path strftime_day db_zero (at_hour 0) "") = false) as H5
    by (vm_compute; reflexivity).
  exact (conj H1 (conj H2 (get_hangs_on_zero_width Z.add 0 strftime_day true db_zero
                             ts_min ts_max 1000 (at_hour 0) (Some (at_hour 1)) None ""
                             empty_world H1 H2 H3 H4 H5))).
Defined.

(** [get_single_bucket]: day 0 of the store of two days. *)
Lemma get_single_bucket_witness :
  0 < self_interval db ∧
  world_ok two_days ∧
  span_ok db ts_min ts_max (at_hour 0) None None ∧
  presentb two_days (chunk_path strftime_day db (at_hour 0) "") = true ∧
  (run (get Z.add 0 strftime_day true db ts_min ts_max 1 (Some (at_hour 0)) None None "")
     two_days).2
  = log (EvRead (chunk_path strftime_day db (at_hour 0) ""))
        (log (EvExists (chunk_path strftime_day db (at_hour 0) "")) two_days) ∧
  (run (get Z.add 0 strftime_day true db ts_min ts_max 1 (Some (at_hour 0)) None None "")
     two_days).1 = Ok day0_frame.
Proof.
  assert (0 < self_interval db) as H1 by (vm_compute; reflexivity).
  assert (1 ≤ 1)%nat as H2 by lia.
  assert (∀ i : Z, (None : option Z) = Some i → i ≤ seconds 900) as H3
    by (intros i Hi; discriminate Hi).
  assert (world_ok two_days) as H4 by (apply (bool_decide_unpack _); vm_compute; exact I).
  assert (span_ok db ts_min ts_max (at_hour 0) None None) as H5
    by (vm_compute; repeat split; discriminate).
  assert (presentb two_days (chunk_path strftime_day db (at_hour 0) "") = true) as H6
    by (vm_compute; reflexivity).
  destruct (get_single_bucket Z.add 0 strftime_day true db ts_min ts_max 1 (at_hour 0) None ""
              two_days H1 H2 H3 H4 H5) as (_ & H).
  destruct (H H6) as (H7 & _).
  assert ((run (get Z.add 0 strftime_day true db ts_min ts_max 1 (Some (at_hour 0)) None None
                  "") two_days).1 = Ok day0_frame) as H8 by (vm_compute; reflexivity).
  exact (conj H1 (conj H4 (conj H5 (conj H6 (conj H7 H8))))).
Defined.

(** [read_file_index_is_aware]: a file whose stamps carry the offset of
    one hour, read by a parser that keeps it: the index stays at that
    offset. *)
Lemma read_file_index_is_aware_witness :
  files offset_files !! "data/0.csv" = Some offset_time ∧
  ∃ csv, (run (_read_file true db "data/0.csv") offset_files).1 = Ok csv ∧
         index_name csv = Some "time" ∧
         empty csv = false ∧
         index_kind csv = DatetimeAware (hour 1).
Proof.
  assert (files offset_files !! "data/0.csv"
          = Some (Csv "time" (DateOffset (hour 1)) [hour 0; hour 1]
                    [("x", {[ hour 0 := 1; hour 1 := 2 ]})])) as H1
    by (vm_compute; reflexivity).
  split; [exact H1|].
  destruct (run (_read_file true db "data/0.csv") offset_files).1 as [csv| |] eqn:E;
    [|exfalso; vm_compute in E; discriminate..].
  destruct (read_file_index_is_aware true db "data/0.csv" offset_files "time"
              (DateOffset (hour 1)) [hour 0; hour 1]
              [("x", {[ hour 0 := 1; hour 1 := 2 ]})] csv H1 E) as [Hname Hkind].
  assert (empty csv = false) as He by (vm_compute in E; injection E as <-; reflexivity).
  exists csv. split; [reflexivity|]. split; [exact Hname|]. split; [exact He|].
  exact (Hkind He).
Defined.

